(** * Roamie biometric sudo gate: request lifecycle

    A shallow embedding of [scripts/roamie_biometric_auth.py].  The script is
    run by PAM, creates an approval request on the VPN server, polls it until
    it resolves or a local deadline passes, and reports the decision through
    its exit status.

    The script talks to three things it does not control: the credential
    file, the HTTP server and the clock.  They are gathered in a [world]
    record, an oracle that fixes what every external call of one run answers.
    The code itself is written in a small state-and-exception monad whose
    state is the history of the run (log lines and external calls, most
    recent first); the n-th call of [time.time()], of [requests.get] and of
    [time.sleep] reads the n-th answer of the oracle.

    The [while True] loop is given fuel; running out of fuel is the outcome
    [Diverge], so that the theorems can tell apart "returns deny" from
    "never returns". *)

From Stdlib Require Import ZArith QArith List String Ascii Bool Arith Lia Lqa.
Import ListNotations.
Local Open Scope string_scope.
Set Warnings "-register-all".

(** ** Python values and exceptions *)

(** What [response.json()] can return. *)
Inductive pyval : Type :=
| PNone
| PBool (b : bool)
| PInt (n : Z)
| PFloat (q : Q)
| PStr (s : string)
| PList (l : list pyval)
| PDict (d : list (string * pyval)).

(** Truth value of an object, as [if not x] tests it. *)
Definition truthy (v : pyval) : bool :=
  match v with
  | PNone => false
  | PBool b => b
  | PInt n => negb (n =? 0)%Z
  | PFloat q => negb (Qeq_bool q 0)
  | PStr s => negb (s =? "")
  | PList l => match l with [] => false | _ :: _ => true end
  | PDict d => match d with [] => false | _ :: _ => true end
  end.

(** [v == s] for a string literal [s]. *)
Definition py_eq_str (v : pyval) (s : string) : bool :=
  match v with
  | PStr t => (t =? s)
  | _ => false
  end.

(** [v in [s1, ..., sn]] for string literals. *)
Definition py_in_strs (v : pyval) (l : list string) : bool :=
  existsb (py_eq_str v) l.

Fixpoint dict_lookup (d : list (string * pyval)) (k : string) : option pyval :=
  match d with
  | [] => None
  | (k', v) :: d' => if (k' =? k) then Some v else dict_lookup d' k
  end.

(** The exception classes the script can meet. *)
Inductive exn : Type :=
| KeyboardInterrupt
| ConnectionError      (* requests.exceptions.ConnectionError *)
| Timeout              (* requests.exceptions.Timeout *)
| JSONDecodeError      (* requests.exceptions.JSONDecodeError *)
| AttributeError
| OSError
| RuntimeError.

(** [except Exception] catches everything but [KeyboardInterrupt]. *)
Definition is_Exception (e : exn) : bool :=
  match e with
  | KeyboardInterrupt => false
  | _ => true
  end.

(** [except requests.exceptions.RequestException]. *)
Definition is_RequestException (e : exn) : bool :=
  match e with
  | ConnectionError | Timeout | JSONDecodeError => true
  | _ => false
  end.

(** ** The outside world *)

(** The credential file. [Unreadable] is a file that exists but whose
    [open] or [read] raises. *)
Inductive file_state : Type :=
| Missing
| Unreadable (st_mode : Z) (e : exn)
| Content (st_mode : Z) (text : string).

Inductive body : Type :=
| Unparseable
| Parsed (v : pyval).

(** Answer of one HTTP call: a response, or an exception raised by
    [requests]. *)
Inductive reply : Type :=
| Response (status_code : Z) (b : body)
| Fails (e : exn).

Record world : Type := {
  argv : list string;                 (* sys.argv[1:] *)
  environ_USER : option string;
  environ_PAM_RHOST : option string;
  gethostname : option string;        (* None: socket.gethostname() raises *)
  jwt_file : file_state;
  post_reply : reply;
  get_reply : nat -> reply;           (* answer of the n-th poll *)
  sleep_exn : nat -> option exn;      (* what interrupts the n-th sleep *)
  clock : nat -> Q                    (* n-th reading of time.time(), seconds *)
}.

(** ** History of a run *)

Inductive message : Type :=
| MsgRequested (command : string)
| MsgTokenNotFound
| MsgInsecurePermissions
| MsgTokenEmpty
| MsgTokenReadError (e : exn)
| MsgCreating (username hostname : string)
| MsgCreated (request_id : pyval)
| MsgCreateRejected (status_code : Z)
| MsgCreateNetworkError (e : exn)
| MsgCreateError (e : exn)
| MsgPollRejected (status_code : Z)
| MsgPollNetworkError (e : exn)
| MsgPollError (e : exn)
| MsgWaiting
| MsgDeadline
| MsgPollFailed
| MsgApproved
| MsgDenied
| MsgRemoteEnded (status : pyval)
| MsgUnknownStatus (status : pyval)
| MsgNoToken
| MsgNoRequest
| MsgSuccessful
| MsgFailed
| MsgCancelled
| MsgUnexpected (e : exn).

Inductive event : Type :=
| Log (m : message)
| HttpPost (token username hostname command : string)
| HttpGet (token : string) (request_id : pyval)
| ClockRead
| Sleep (secs : Q).

Definition history : Type := list event.

Definition is_get (e : event) : bool :=
  match e with HttpGet _ _ => true | _ => false end.
Definition is_post (e : event) : bool :=
  match e with HttpPost _ _ _ _ => true | _ => false end.
Definition is_clock (e : event) : bool :=
  match e with ClockRead => true | _ => false end.
Definition is_sleep (e : event) : bool :=
  match e with Sleep _ => true | _ => false end.
Definition is_warning (e : event) : bool :=
  match e with Log MsgInsecurePermissions => true | _ => false end.

Definition count (p : event -> bool) (h : history) : nat :=
  List.length (filter p h).

Definition polls (h : history) : nat := count is_get h.
Definition posts (h : history) : nat := count is_post h.
Definition readings (h : history) : nat := count is_clock h.
Definition naps (h : history) : nat := count is_sleep h.

(** ** The monad *)

Inductive outcome (A : Type) : Type :=
| Val (a : A)
| Raise (e : exn)
| Diverge.
Arguments Val {A} a.
Arguments Raise {A} e.
Arguments Diverge {A}.

Definition M (A : Type) : Type := history -> outcome A * history.

Definition ret {A} (a : A) : M A := fun h => (Val a, h).

Definition bind {A B} (m : M A) (k : A -> M B) : M B :=
  fun h =>
    match m h with
    | (Val a, h') => k a h'
    | (Raise e, h') => (Raise e, h')
    | (Diverge, h') => (Diverge, h')
    end.

Definition raise {A} (e : exn) : M A := fun h => (Raise e, h).

Definition diverge {A} : M A := fun h => (Diverge, h).

(** [try: m  except ...], the handler table picks the first clause that
    matches the exception, if any. *)
Definition try_except {A} (m : M A) (handler : exn -> option (M A)) : M A :=
  fun h =>
    match m h with
    | (Raise e, h') =>
        match handler e with
        | Some k => k h'
        | None => (Raise e, h')
        end
    | r => r
    end.

Definition emit (e : event) : M unit := fun h => (Val tt, e :: h).

Declare Scope py_scope.
Delimit Scope py_scope with py.
Notation "x <- m ;; k" := (bind m (fun x => k))
  (at level 61, m at next level, right associativity) : py_scope.
Notation "m ;; k" := (bind m (fun _ => k))
  (at level 61, right associativity) : py_scope.
Local Open Scope py_scope.

(** ** Configuration *)

Definition REQUEST_TIMEOUT : Q := 30.
Definition POLL_INTERVAL : Q := 2.

(** ** String helpers *)

(** [str.isspace] on code points below 256. *)
Definition isspace (c : ascii) : bool :=
  let n := nat_of_ascii c in
  (((9 <=? n) && (n <=? 13)) || ((28 <=? n) && (n <=? 32))
   || (n =? 133) || (n =? 160))%nat.

Fixpoint lstrip (s : string) : string :=
  match s with
  | EmptyString => EmptyString
  | String c r => if isspace c then lstrip r else s
  end.

Fixpoint rstrip (s : string) : string :=
  match s with
  | EmptyString => EmptyString
  | String c r =>
      match rstrip r with
      | EmptyString => if isspace c then EmptyString else String c EmptyString
      | r' => String c r'
      end
  end.

Definition strip (s : string) : string := rstrip (lstrip s).

Fixpoint all_space (s : string) : bool :=
  match s with
  | EmptyString => true
  | String c r => isspace c && all_space r
  end.

(** [dict.get(key, default)] of [os.environ]. *)
Definition getenv (var : option string) (default : string) : string :=
  match var with
  | Some v => v
  | None => default
  end.

Definition Qgtb (x y : Q) : bool := negb (Qle_bool x y).

(** ** The script *)

Section Script.

Variable w : world.

Definition log (m : message) : M unit := emit (Log m).

(** *** Primitives answered by the world *)

Definition os_path_exists : M bool :=
  ret match jwt_file w with
      | Missing => false
      | _ => true
      end.

(** [os.stat(path).st_mode] *)
Definition os_stat_mode : M Z :=
  match jwt_file w with
  | Missing => raise OSError
  | Unreadable mode _ => ret mode
  | Content mode _ => ret mode
  end.

(** [with open(path, 'r') as f: f.read()] *)
Definition read_file : M string :=
  match jwt_file w with
  | Missing => raise OSError
  | Unreadable _ e => raise e
  | Content _ text => ret text
  end.

Definition time_time : M Q :=
  fun h => (Val (clock w (readings h)), ClockRead :: h).

Definition time_sleep (secs : Q) : M unit :=
  fun h =>
    match sleep_exn w (naps h) with
    | Some e => (Raise e, Sleep secs :: h)
    | None => (Val tt, Sleep secs :: h)
    end.

Definition requests_post (token username hostname command : string)
  : M (Z * body) :=
  fun h =>
    let h' := HttpPost token username hostname command :: h in
    match post_reply w with
    | Response code b => (Val (code, b), h')
    | Fails e => (Raise e, h')
    end.

Definition requests_get (token : string) (request_id : pyval)
  : M (Z * body) :=
  fun h =>
    let h' := HttpGet token request_id :: h in
    match get_reply w (polls h) with
    | Response code b => (Val (code, b), h')
    | Fails e => (Raise e, h')
    end.

(** [response.json()] *)
Definition response_json (b : body) : M pyval :=
  match b with
  | Unparseable => raise JSONDecodeError
  | Parsed v => ret v
  end.

(** [result.get(key, default)]; only a dict has the method. *)
Definition py_get (result : pyval) (key : string) (default : pyval) : M pyval :=
  match result with
  | PDict d =>
      ret match dict_lookup d key with
          | Some v => v
          | None => default
          end
  | _ => raise AttributeError
  end.

(** *** [read_jwt_token] *)

Definition read_jwt_token : M (option string) :=
  try_except
    (found <- os_path_exists ;;
     if negb found then
       log MsgTokenNotFound ;;
       ret None
     else
       st_mode <- os_stat_mode ;;
       (if negb (Z.land st_mode 63 =? 0)%Z     (* 0o077 *)
        then log MsgInsecurePermissions
        else ret tt) ;;
       text <- read_file ;;
       let token := strip text in
       if (token =? "") then
         log MsgTokenEmpty ;;
         ret None
       else
         ret (Some token))
    (fun e =>
       if is_Exception e then
         Some (log (MsgTokenReadError e) ;; ret None)
       else None).

(** *** [get_hostname] *)

Definition get_hostname : M string :=
  try_except
    (match gethostname w with
     | Some name => ret name
     | None => raise OSError
     end)
    (fun e => if is_Exception e then Some (ret "unknown") else None).

(** *** [create_auth_request] *)

Definition create_auth_request (token command : string) : M pyval :=
  let username := getenv (environ_USER w) "unknown" in
  hostname <- get_hostname ;;
  try_except
    (log (MsgCreating username hostname) ;;
     response <- requests_post token username hostname command ;;
     let '(status_code, content) := response in
     if (status_code =? 201)%Z then
       result <- response_json content ;;
       request_id <- py_get result "request_id" PNone ;;
       log (MsgCreated request_id) ;;
       ret request_id
     else
       log (MsgCreateRejected status_code) ;;
       ret PNone)
    (fun e =>
       if is_RequestException e then
         Some (log (MsgCreateNetworkError e) ;; ret PNone)
       else if is_Exception e then
         Some (log (MsgCreateError e) ;; ret PNone)
       else None).

(** *** [poll_auth_status] *)

Definition poll_auth_status (token : string) (request_id : pyval)
  : M (bool * pyval) :=
  try_except
    (response <- requests_get token request_id ;;
     let '(status_code, content) := response in
     if (status_code =? 200)%Z then
       result <- response_json content ;;
       status <- py_get result "status" (PStr "unknown") ;;
       ret (true, status)
     else
       log (MsgPollRejected status_code) ;;
       ret (false, PStr "error"))
    (fun e =>
       if is_RequestException e then
         Some (log (MsgPollNetworkError e) ;; ret (false, PStr "error"))
       else if is_Exception e then
         Some (log (MsgPollError e) ;; ret (false, PStr "error"))
       else None).

(** *** [wait_for_auth_response] *)

(** The body of [while True], one unit of fuel per pass. *)
Fixpoint wait_loop (fuel : nat) (token : string) (request_id : pyval)
  (start_time : Q) : M bool :=
  match fuel with
  | O => diverge
  | S fuel' =>
      now <- time_time ;;
      let elapsed := (now - start_time)%Q in
      if Qgtb elapsed REQUEST_TIMEOUT then
        log MsgDeadline ;;
        ret false
      else
        polled <- poll_auth_status token request_id ;;
        let '(success, status) := polled in
        if negb success then
          log MsgPollFailed ;;
          ret false
        else if py_eq_str status "approved" then
          log MsgApproved ;;
          ret true
        else if py_eq_str status "denied" then
          log MsgDenied ;;
          ret false
        else if py_in_strs status ["expired"; "timeout"] then
          log (MsgRemoteEnded status) ;;
          ret false
        else if py_eq_str status "pending" then
          time_sleep POLL_INTERVAL ;;
          wait_loop fuel' token request_id start_time
        else
          log (MsgUnknownStatus status) ;;
          ret false
  end.

Definition wait_for_auth_response (fuel : nat) (token : string)
  (request_id : pyval) : M bool :=
  start_time <- time_time ;;
  log MsgWaiting ;;
  wait_loop fuel token request_id start_time.

(** *** [main] *)

Definition command_line : string :=
  match argv w with
  | [] => getenv (environ_PAM_RHOST w) "sudo"
  | _ :: _ => String.concat " " (argv w)
  end.

Definition main (fuel : nat) : M Z :=
  let command := command_line in
  log (MsgRequested command) ;;
  token <- read_jwt_token ;;
  match token with
  | None => log MsgNoToken ;; ret 1%Z
  | Some tok =>
      if (tok =? "") then               (* [not token] on a string *)
        log MsgNoToken ;; ret 1%Z
      else
        request_id <- create_auth_request tok command ;;
        if negb (truthy request_id) then
          log MsgNoRequest ;;
          ret 1%Z
        else
          approved <- wait_for_auth_response fuel tok request_id ;;
          if approved : bool then
            log MsgSuccessful ;;
            ret 0%Z
          else
            log MsgFailed ;;
            ret 1%Z
  end.

(** *** The [__main__] guard

    [sys.exit(main())] ends the process with what [main] returned; the two
    handlers turn an interruption and any other exception into status 1.
    [None] is a run that has not ended within the fuel. *)
Definition is_KeyboardInterrupt (e : exn) : bool :=
  match e with
  | KeyboardInterrupt => true
  | _ => false
  end.

Definition run (fuel : nat) : option Z * history :=
  match main fuel [] with
  | (Val code, h) => (Some code, h)
  | (Raise e, h) =>
      if is_KeyboardInterrupt e then
        (Some 1%Z, Log MsgCancelled :: h)
      else if is_Exception e then
        (Some 1%Z, Log (MsgUnexpected e) :: h)
      else
        (Some 1%Z, h)       (* uncaught: the interpreter ends with status 1 *)
  | (Diverge, h) => (None, h)
  end.

Definition exit_status (fuel : nat) : option Z := fst (run fuel).
Definition transcript (fuel : nat) : history := snd (run fuel).

End Script.

(** * Vocabulary of the statements

    Nothing below is part of the script: these are the predicates the
    theorems are stated with, closed forms of what the three network and
    file functions return (each proved equal to the function it describes),
    and the sample worlds the statements are tried on. *)

Local Open Scope list_scope.

(** ** Histories *)

Definition is_log (e : event) : bool :=
  match e with Log _ => true | _ => false end.

(** A stretch of history made of log lines only. *)
Definition quiet (l : history) : Prop := forallb is_log l = true.

(** What [read_jwt_token] returns, read off the state of the file. *)
Definition credential (f : file_state) : outcome (option string) :=
  match f with
  | Missing => Val None
  | Unreadable _ e => if is_Exception e then Val None else Raise e
  | Content _ text =>
      if (strip text =? "") then Val None else Val (Some (strip text))
  end.

(** The mode [os.stat] reports, when the file exists. *)
Definition st_mode_of (f : file_state) : option Z :=
  match f with
  | Missing => None
  | Unreadable mode _ => Some mode
  | Content mode _ => Some mode
  end.

(** What [create_auth_request] returns, read off the server's answer. *)
Definition created (r : reply) : outcome pyval :=
  match r with
  | Response code (Parsed (PDict d)) =>
      if (code =? 201)%Z then
        Val match dict_lookup d "request_id" with
            | Some v => v
            | None => PNone
            end
      else Val PNone
  | Response code _ => Val PNone
  | Fails e => if is_Exception e then Val PNone else Raise e
  end.

(** What the k-th call of [poll_auth_status] returns, read off the server's
    k-th answer. *)
Definition polled (r : reply) : outcome (bool * pyval) :=
  match r with
  | Response code (Parsed (PDict d)) =>
      if (code =? 200)%Z then
        Val (true, match dict_lookup d "status" with
                   | Some v => v
                   | None => PStr "unknown"
                   end)
      else Val (false, PStr "error")
  | Response code _ => Val (false, PStr "error")
  | Fails e => if is_Exception e then Val (false, PStr "error") else Raise e
  end.

(** The history when [main] calls [read_jwt_token]. *)
Definition start_history (w : world) : history :=
  [Log (MsgRequested (command_line w))].

(** The loop's reading of a status: [Some b] ends the loop with [b],
    [None] goes round again. *)
Definition verdict (status : pyval) : option bool :=
  if py_eq_str status "approved" then Some true
  else if py_eq_str status "denied" then Some false
  else if py_in_strs status ["expired"; "timeout"] then Some false
  else if py_eq_str status "pending" then None
  else Some false.

(** What the run of the loop must look like around the k-th poll, given
    what that poll returned. *)
Definition settles (o : outcome (bool * pyval)) (r : outcome bool)
  (last : Prop) : Prop :=
  match o with
  | Val (true, status) =>
      match verdict status with
      | Some b => r = Val b /\ last
      | None => True
      end
  | Val (false, _) => r = Val false /\ last
  | Raise e => r = Raise e /\ last
  | Diverge => False
  end.

(** Two histories after which the oracle gives the same answers. *)
Definition same_counts (h1 h2 : history) : Prop :=
  polls h1 = polls h2 /\ readings h1 = readings h2 /\ naps h1 = naps h2.

(** A computation that looks at the history through these counts only. *)
Definition oblivious {A} (m : M A) : Prop :=
  forall h1 h2, same_counts h1 h2 ->
    fst (m h1) = fst (m h2) /\ same_counts (snd (m h1)) (snd (m h2)).

(** A JSON value has the field [k] only when it is an object with that key. *)
Definition lacks_field (v : pyval) (k : string) : Prop :=
  match v with
  | PDict d => dict_lookup d k = None
  | _ => True
  end.

(** The creation answers that are failures. *)
Inductive creation_fails : reply -> Prop :=
| cf_status code b : code <> 201%Z -> creation_fails (Response code b)
| cf_connection : creation_fails (Fails ConnectionError)
| cf_timeout : creation_fails (Fails Timeout)
| cf_unparseable : creation_fails (Response 201 Unparseable)
| cf_no_request_id v :
    lacks_field v "request_id" -> creation_fails (Response 201 (Parsed v)).

(** The states of the credential file that leave the loader empty-handed. *)
Inductive credential_unavailable : file_state -> Prop :=
| cu_missing : credential_unavailable Missing
| cu_unreadable mode e :
    is_Exception e = true -> credential_unavailable (Unreadable mode e)
| cu_blank mode text :
    all_space text = true -> credential_unavailable (Content mode text).

(** Number of permission warnings logged so far. *)
Definition warnings (h : history) : nat := count is_warning h.

(** The permission bits of a mode (0o7777) other than owner read (0o400)
    and owner write (0o200). *)
Definition beyond_owner_rw (mode : Z) : Z := Z.land mode (Z.lxor 4095 384).

(** The rest of [main] once the token has been read. *)
Definition after_token (w : world) (fuel : nat) (token : option string) : M Z :=
  match token with
  | None => log MsgNoToken ;; ret 1%Z
  | Some tok =>
      if (tok =? "") then
        log MsgNoToken ;; ret 1%Z
      else
        request_id <- create_auth_request w tok (command_line w) ;;
        if negb (truthy request_id) then
          log MsgNoRequest ;;
          ret 1%Z
        else
          approved <- wait_for_auth_response w fuel tok request_id ;;
          if approved : bool then
            log MsgSuccessful ;;
            ret 0%Z
          else
            log MsgFailed ;;
            ret 1%Z
  end.

(** The exit status as a function of how [main] ended. *)
Definition exit_of (o : outcome Z) : option Z :=
  match o with
  | Val code => Some code
  | Raise _ => Some 1%Z
  | Diverge => None
  end.

(** The server's answer is a 200 whose body is an object with status [s]. *)
Definition answers (r : reply) (s : string) : Prop :=
  exists d, r = Response 200 (Parsed (PDict d))
            /\ dict_lookup d "status" = Some (PStr s).

(** The statuses the server is documented to send. *)
Definition known_statuses : list string :=
  ["pending"; "approved"; "denied"; "expired"; "timeout"].

(** The run reached the polling loop and the loop returned True. *)
Definition allow_decision (w : world) (fuel : nat) : Prop :=
  exists tok h1 request_id h2 h3,
    read_jwt_token w (start_history w) = (Val (Some tok), h1)
    /\ (tok =? "") = false
    /\ create_auth_request w tok (command_line w) h1 = (Val request_id, h2)
    /\ truthy request_id = true
    /\ wait_for_auth_response w fuel tok request_id h2 = (Val true, h3).

(** ** Sample worlds *)

Definition with_jwt_file (w : world) (f : file_state) : world :=
  {| argv := argv w; environ_USER := environ_USER w;
     environ_PAM_RHOST := environ_PAM_RHOST w; gethostname := gethostname w;
     jwt_file := f; post_reply := post_reply w; get_reply := get_reply w;
     sleep_exn := sleep_exn w; clock := clock w |}.

Definition with_post_reply (w : world) (r : reply) : world :=
  {| argv := argv w; environ_USER := environ_USER w;
     environ_PAM_RHOST := environ_PAM_RHOST w; gethostname := gethostname w;
     jwt_file := jwt_file w; post_reply := r; get_reply := get_reply w;
     sleep_exn := sleep_exn w; clock := clock w |}.

Definition with_get_reply (w : world) (g : nat -> reply) : world :=
  {| argv := argv w; environ_USER := environ_USER w;
     environ_PAM_RHOST := environ_PAM_RHOST w; gethostname := gethostname w;
     jwt_file := jwt_file w; post_reply := post_reply w; get_reply := g;
     sleep_exn := sleep_exn w; clock := clock w |}.

Definition with_clock (w : world) (c : nat -> Q) : world :=
  {| argv := argv w; environ_USER := environ_USER w;
     environ_PAM_RHOST := environ_PAM_RHOST w; gethostname := gethostname w;
     jwt_file := jwt_file w; post_reply := post_reply w;
     get_reply := get_reply w; sleep_exn := sleep_exn w; clock := c |}.

(** [os.chmod]: the same file under another mode. *)
Definition chmod (mode : Z) (f : file_state) : file_state :=
  match f with
  | Missing => Missing
  | Unreadable _ e => Unreadable mode e
  | Content _ text => Content mode text
  end.

Definition status_body (s : string) : reply :=
  Response 200 (Parsed (PDict [("status", PStr s)])).

(** The server answers "pending" twice, then "approved"; a poll takes no
    time and a sleep lasts exactly [POLL_INTERVAL]. *)
Definition approving_world : world :=
  {| argv := ["apt"; "update"];
     environ_USER := Some "alice";
     environ_PAM_RHOST := None;
     gethostname := Some "laptop";
     jwt_file := Content 384 "eyJhbGciOi";          (* mode 0o600 *)
     post_reply :=
       Response 201 (Parsed (PDict [("request_id", PStr "req-1")]));
     get_reply := fun k =>
       match k with
       | 0%nat | 1%nat => status_body "pending"
       | _ => status_body "approved"
       end;
     sleep_exn := fun _ => None;
     clock := fun n => inject_Z (2 * Z.of_nat (Nat.pred n)) |}.

(** The server never leaves "pending". *)
Definition pending_world : world :=
  with_get_reply approving_world (fun _ => status_body "pending").

(** The same, when every poll takes five seconds to be answered. *)
Definition slow_world : world :=
  with_clock pending_world (fun n => inject_Z (7 * Z.of_nat (Nat.pred n))).

(** The second poll meets a server error. *)
Definition failing_world : world :=
  with_get_reply approving_world
    (fun k => match k with
              | 0%nat => status_body "pending"
              | _ => Response 500 Unparseable
              end).

(** The server invents a status. *)
Definition weird_world : world :=
  with_get_reply approving_world (fun _ => status_body "weird_value").

(** A 200 answer whose body is a JSON array. *)
Definition array_world : world :=
  with_get_reply approving_world (fun _ => Response 200 (Parsed (PList []))).

(** A 200 answer whose body is an object without a status key. *)
Definition statusless_world : world :=
  with_get_reply approving_world
    (fun _ => Response 200 (Parsed (PDict [("state", PStr "ok")]))).

(** Creation is refused. *)
Definition refusing_world : world :=
  with_post_reply approving_world (Response 401 Unparseable).

(** Creation succeeds with an empty request_id. *)
Definition nameless_world : world :=
  with_post_reply approving_world
    (Response 201 (Parsed (PDict [("request_id", PStr "")]))).

(** No credential file. *)
Definition tokenless_world : world := with_jwt_file approving_world Missing.

(** The credential file is executable by its owner (mode 0o700). *)
Definition executable_world : world :=
  with_jwt_file approving_world (Content 448 "eyJhbGciOi").

(** ** Vocabulary of the further properties *)

(** The first character exists and is not whitespace. *)
Definition starts_nonspace (s : string) : bool :=
  match s with
  | EmptyString => false
  | String c _ => negb (isspace c)
  end.

(** The last character exists and is not whitespace. *)
Fixpoint ends_nonspace (s : string) : bool :=
  match s with
  | EmptyString => false
  | String c EmptyString => negb (isspace c)
  | String _ r => ends_nonspace r
  end.

(** What [get_hostname] returns. *)
Definition hostname_or_unknown (w : world) : string :=
  match gethostname w with
  | Some name => name
  | None => "unknown"
  end.

(** The one POST [create_auth_request] sends for a token and a command. *)
Definition creation_post (w : world) (token command : string) : event :=
  HttpPost token (getenv (environ_USER w) "unknown") (hostname_or_unknown w)
    command.

(** What the polling loop may add to the history when it polls for
    [request_id] with [token]: log lines, clock readings, GETs for that
    request with that token, and sleeps of [POLL_INTERVAL]; never a POST. *)
Definition loop_event (token : string) (request_id : pyval) (e : event)
  : Prop :=
  match e with
  | Log _ => True
  | ClockRead => True
  | HttpGet t r => t = token /\ r = request_id
  | Sleep secs => secs = POLL_INTERVAL
  | HttpPost _ _ _ _ => False
  end.

(** A request of a run is backed by the run's own credential and, for a
    poll, by the request id its creation call returned. *)
Definition backed_request (w : world) (e : event) : Prop :=
  match e with
  | HttpPost t u hn c =>
      fst (read_jwt_token w []) = Val (Some t)
      /\ e = creation_post w t (command_line w)
  | HttpGet t r =>
      fst (read_jwt_token w []) = Val (Some t)
      /\ fst (create_auth_request w t (command_line w) []) = Val r
      /\ truthy r = true
  | _ => True
  end.

Definition with_sleep_exn (w : world) (s : nat -> option exn) : world :=
  {| argv := argv w; environ_USER := environ_USER w;
     environ_PAM_RHOST := environ_PAM_RHOST w; gethostname := gethostname w;
     jwt_file := jwt_file w; post_reply := post_reply w;
     get_reply := get_reply w; sleep_exn := s; clock := clock w |}.

(** The token sits between a leading blank and a trailing newline. *)
Definition padded_world : world :=
  with_jwt_file approving_world
    (Content 384 (String " " ("eyJhbGciOi" ++ String (ascii_of_nat 10) ""))%string).

(** The server answers "pending", then "denied". *)
Definition denying_world : world :=
  with_get_reply approving_world
    (fun k => match k with
              | 0%nat => status_body "pending"
              | _ => status_body "denied"
              end).

(** The first sleep is cut short by Ctrl-C. *)
Definition interrupted_world : world :=
  with_sleep_exn approving_world (fun _ => Some KeyboardInterrupt).

(** The clock jumps by a minute between the start and the first check,
    while the server would approve at once. *)
Definition late_world : world :=
  with_clock
    (with_get_reply approving_world (fun _ => status_body "approved"))
    (fun n => inject_Z (60 * Z.of_nat n)).

(** The first check comes exactly 30 seconds after the start, and the
    server approves at once. *)
Definition brink_world : world :=
  with_clock
    (with_get_reply approving_world (fun _ => status_body "approved"))
    (fun n => inject_Z (30 * Z.of_nat n)).

(** The elapsed time the [j]-th deadline check (counted from 0) of a call of
    [wait_for_auth_response] finds, when the call starts at history [h]. *)
Definition elapsed_at (w : world) (h : history) (j : nat) : Q :=
  clock w (readings h + S j) - clock w (readings h).

(** The seconds slept since the last reading of the clock. *)
Fixpoint slept_since_reading (h : history) : Q :=
  match h with
  | [] => 0
  | Sleep secs :: h' => secs + slept_since_reading h'
  | ClockRead :: _ => 0
  | _ :: h' => slept_since_reading h'
  end.

(** Time does not pass faster than it is slept: every reading of the clock
    in the history is at least the reading before it plus the sleeps made in
    between.  This is all that is asked of the clock of a run; how long the
    other calls take is left open. *)
Fixpoint sleeps_honoured (w : world) (h : history) : bool :=
  match h with
  | [] => true
  | ClockRead :: h' =>
      match readings h' with
      | O => true
      | S k => Qle_bool (clock w k + slept_since_reading h') (clock w (S k))
      end && sleeps_honoured w h'
  | _ :: h' => sleeps_honoured w h'
  end.

(** * Properties *)

(** ** Counting events *)

Lemma count_cons p e h :
  count p (e :: h) = if p e then S (count p h) else count p h.
Proof. unfold count; simpl; destruct (p e); reflexivity. Qed.

Lemma count_app p l h : count p (l ++ h) = (count p l + count p h)%nat.
Proof.
  unfold count. rewrite filter_app, length_app. reflexivity.
Qed.

Lemma quiet_count p l :
  (forall e, is_log e = true -> p e = false) ->
  quiet l -> count p l = 0%nat.
Proof.
  intros Hp. unfold quiet. induction l as [|e l IH]; simpl; intro Hq.
  - reflexivity.
  - apply andb_true_iff in Hq. destruct Hq as [He Hl].
    rewrite count_cons, (Hp e He). auto.
Qed.

Lemma quiet_polls l : quiet l -> polls l = 0%nat.
Proof. apply quiet_count. intros [] H; simpl in *; congruence. Qed.
Lemma quiet_posts l : quiet l -> posts l = 0%nat.
Proof. apply quiet_count. intros [] H; simpl in *; congruence. Qed.
Lemma quiet_readings l : quiet l -> readings l = 0%nat.
Proof. apply quiet_count. intros [] H; simpl in *; congruence. Qed.
Lemma quiet_naps l : quiet l -> naps l = 0%nat.
Proof. apply quiet_count. intros [] H; simpl in *; congruence. Qed.

(** ** Stripping *)

Lemma lstrip_all_space s : all_space s = true -> lstrip s = "".
Proof.
  induction s as [|c r IH]; simpl; intro H.
  - reflexivity.
  - apply andb_true_iff in H. destruct H as [Hc Hr].
    rewrite Hc. auto.
Qed.

Lemma strip_all_space s : all_space s = true -> strip s = "".
Proof. intro H. unfold strip. rewrite (lstrip_all_space s H). reflexivity. Qed.

(** ** The credential loader *)

Ltac unfold_py :=
  unfold create_auth_request, poll_auth_status, read_jwt_token, get_hostname,
    os_path_exists, os_stat_mode, read_file, requests_post, requests_get,
    response_json, py_get, time_time, time_sleep, log, emit,
    try_except, bind, ret, raise, diverge in *.

Lemma read_jwt_token_value w h :
  fst (read_jwt_token w h) = credential (jwt_file w).
Proof.
  unfold_py. unfold credential.
  destruct (jwt_file w) as [|mode e|mode text]; simpl.
  - reflexivity.
  - destruct (negb (Z.land mode 63 =? 0)%Z); simpl;
      destruct e; reflexivity.
  - destruct (negb (Z.land mode 63 =? 0)%Z); simpl;
      destruct (strip text =? ""); reflexivity.
Qed.

Ltac prefix_of_history :=
  first
    [ exists []; split; reflexivity
    | eexists [_]; split; reflexivity
    | eexists [_; _]; split; reflexivity
    | eexists [_; _; _]; split; reflexivity
    | eexists [_; _; _; _]; split; reflexivity ].

Lemma read_jwt_token_quiet w h :
  exists l, snd (read_jwt_token w h) = l ++ h /\ quiet l.
Proof.
  unfold_py.
  destruct (jwt_file w) as [|mode e|mode text]; simpl.
  - prefix_of_history.
  - destruct (negb (Z.land mode 63 =? 0)%Z); simpl; destruct e; simpl;
      prefix_of_history.
  - destruct (negb (Z.land mode 63 =? 0)%Z); simpl;
      destruct (strip text =? ""); simpl; prefix_of_history.
Qed.

(** ** The approval request client *)

Lemma create_auth_request_value w token command h :
  fst (create_auth_request w token command h) = created (post_reply w).
Proof.
  unfold_py. unfold created.
  destruct (gethostname w); simpl;
    (destruct (post_reply w) as [code [|v]|e]; simpl;
     [ destruct (code =? 201)%Z; reflexivity
     | destruct (code =? 201)%Z; simpl; [destruct v; reflexivity | destruct v; reflexivity]
     | destruct e; reflexivity ]).
Qed.

Lemma create_auth_request_history w token command h :
  exists l, snd (create_auth_request w token command h) = l ++ h
            /\ polls l = 0%nat /\ readings l = 0%nat /\ naps l = 0%nat
            /\ posts l = 1%nat.
Proof.
  unfold_py.
  destruct (gethostname w); simpl;
    (destruct (post_reply w) as [code [|v]|e]; simpl;
     [ destruct (code =? 201)%Z; simpl
     | destruct (code =? 201)%Z; simpl; [destruct v; simpl |]
     | destruct e; simpl ]);
    first
      [ eexists [_; _]; split; [reflexivity | repeat split; reflexivity]
      | eexists [_; _; _]; split; [reflexivity | repeat split; reflexivity] ].
Qed.

(** ** The status poller *)

Lemma poll_auth_status_value w token request_id h :
  fst (poll_auth_status w token request_id h) = polled (get_reply w (polls h)).
Proof.
  unfold_py. unfold polled.
  destruct (get_reply w (polls h)) as [code [|v]|e]; simpl.
  - destruct (code =? 200)%Z; reflexivity.
  - destruct (code =? 200)%Z; simpl; destruct v; reflexivity.
  - destruct e; reflexivity.
Qed.

Lemma poll_auth_status_history w token request_id h :
  exists l, snd (poll_auth_status w token request_id h) = l ++ h
            /\ polls l = 1%nat /\ readings l = 0%nat /\ naps l = 0%nat
            /\ posts l = 0%nat.
Proof.
  unfold_py.
  destruct (get_reply w (polls h)) as [code [|v]|e]; simpl;
    [ destruct (code =? 200)%Z; simpl
    | destruct (code =? 200)%Z; simpl; [destruct v; simpl |]
    | destruct e; simpl ];
    first
      [ eexists [_]; split; [reflexivity | repeat split; reflexivity]
      | eexists [_; _]; split; [reflexivity | repeat split; reflexivity] ].
Qed.

Lemma poll_auth_status_polls w token request_id h :
  polls (snd (poll_auth_status w token request_id h)) = S (polls h).
Proof.
  destruct (poll_auth_status_history w token request_id h)
    as (l & -> & Hp & _).
  unfold polls in *. rewrite count_app, Hp. reflexivity.
Qed.

Lemma py_eq_str_true v s : py_eq_str v s = true -> v = PStr s.
Proof.
  destruct v; simpl; try discriminate.
  intro H. apply String.eqb_eq in H. congruence.
Qed.

(** ** Stages of [main] *)

Lemma main_stage_token w fuel :
  main w fuel [] =
  match read_jwt_token w (start_history w) with
  | (Val None, h1) => (Val 1%Z, Log MsgNoToken :: h1)
  | (Val (Some tok), h1) =>
      if (tok =? "") then (Val 1%Z, Log MsgNoToken :: h1)
      else
        match create_auth_request w tok (command_line w) h1 with
        | (Val request_id, h2) =>
            if truthy request_id then
              match wait_for_auth_response w fuel tok request_id h2 with
              | (Val true, h3) => (Val 0%Z, Log MsgSuccessful :: h3)
              | (Val false, h3) => (Val 1%Z, Log MsgFailed :: h3)
              | (Raise e, h3) => (Raise e, h3)
              | (Diverge, h3) => (Diverge, h3)
              end
            else (Val 1%Z, Log MsgNoRequest :: h2)
        | (Raise e, h2) => (Raise e, h2)
        | (Diverge, h2) => (Diverge, h2)
        end
  | (Raise e, h1) => (Raise e, h1)
  | (Diverge, h1) => (Diverge, h1)
  end.
Proof.
  unfold main, start_history.
  unfold bind at 1. unfold log at 1, emit at 1.
  unfold bind at 1.
  destruct (read_jwt_token w _) as [[[tok|]| |] h1]; try reflexivity.
  destruct (tok =? ""); try reflexivity.
  unfold bind at 1.
  destruct (create_auth_request w tok _ h1) as [[rid| |] h2]; try reflexivity.
  destruct (truthy rid); try reflexivity.
  simpl. unfold bind at 1.
  destruct (wait_for_auth_response w fuel tok rid h2) as [[[|]| |] h3];
    reflexivity.
Qed.

(** ** One pass of the polling loop *)

Lemma wait_loop_pass w fuel token request_id start_time h :
  wait_loop w (S fuel) token request_id start_time h =
  if Qgtb (clock w (readings h) - start_time) REQUEST_TIMEOUT then
    (Val false, Log MsgDeadline :: ClockRead :: h)
  else
    match poll_auth_status w token request_id (ClockRead :: h) with
    | (Val (success, status), h2) =>
        if negb success then (Val false, Log MsgPollFailed :: h2)
        else if py_eq_str status "approved" then
          (Val true, Log MsgApproved :: h2)
        else if py_eq_str status "denied" then
          (Val false, Log MsgDenied :: h2)
        else if py_in_strs status ["expired"; "timeout"] then
          (Val false, Log (MsgRemoteEnded status) :: h2)
        else if py_eq_str status "pending" then
          match sleep_exn w (naps h2) with
          | Some e => (Raise e, Sleep POLL_INTERVAL :: h2)
          | None =>
              wait_loop w fuel token request_id start_time
                (Sleep POLL_INTERVAL :: h2)
          end
        else (Val false, Log (MsgUnknownStatus status) :: h2)
    | (Raise e, h2) => (Raise e, h2)
    | (Diverge, h2) => (Diverge, h2)
    end.
Proof.
  cbn [wait_loop]. unfold bind at 1. unfold time_time at 1.
  destruct (Qgtb _ _); [reflexivity|].
  unfold bind at 1.
  destruct (poll_auth_status w token request_id (ClockRead :: h))
    as [[[success status]| |] h2]; try reflexivity.
  destruct success; cbn [negb]; [|reflexivity].
  destruct (py_eq_str status "approved"); [reflexivity|].
  destruct (py_eq_str status "denied"); [reflexivity|].
  destruct (py_in_strs status _); [reflexivity|].
  destruct (py_eq_str status "pending"); [|reflexivity].
  unfold bind at 1, time_sleep at 1.
  destruct (sleep_exn w (naps h2)); reflexivity.
Qed.

Lemma wait_for_auth_response_unfold w fuel token request_id h :
  wait_for_auth_response w fuel token request_id h =
  wait_loop w fuel token request_id (clock w (readings h))
    (Log MsgWaiting :: ClockRead :: h).
Proof. reflexivity. Qed.

Lemma polls_cons_quiet m h : polls (Log m :: h) = polls h.
Proof. reflexivity. Qed.

Lemma wait_loop_polls w token request_id start_time fuel :
  forall h r h',
    wait_loop w fuel token request_id start_time h = (r, h') ->
    forall k, (polls h <= k < polls h')%nat ->
      settles (polled (get_reply w k)) r (polls h' = S k).
Proof.
  induction fuel as [|fuel IH]; intros h r h' Hrun k Hk.
  - cbn in Hrun. injection Hrun as <- <-. lia.
  - rewrite wait_loop_pass in Hrun.
    destruct (Qgtb _ _).
    { injection Hrun as <- <-. change (polls (Log MsgDeadline :: ClockRead :: h))
        with (polls h) in Hk. lia. }
    pose proof (poll_auth_status_value w token request_id (ClockRead :: h)) as Hv.
    pose proof (poll_auth_status_polls w token request_id (ClockRead :: h)) as Hp.
    change (polls (ClockRead :: h)) with (polls h) in Hv, Hp.
    destruct (poll_auth_status w token request_id (ClockRead :: h))
      as [o h2]. cbn [fst snd] in Hv, Hp.
    assert (Hone : forall m, polls (Log m :: h2) = S k -> k = polls h)
      by (intros m; rewrite polls_cons_quiet; lia).
    assert (Hin : forall m, (polls h <= k < polls (Log m :: h2))%nat ->
                            k = polls h /\ polls (Log m :: h2) = S k)
      by (intros m; rewrite polls_cons_quiet; lia).
    destruct o as [[success status]| |].
    + destruct success; cbn [negb] in Hrun.
      * unfold settles, verdict.
        destruct (py_eq_str status "approved") eqn:Ea.
        { injection Hrun as <- <-. destruct (Hin _ Hk) as [-> Hl].
          rewrite <- Hv, Ea. auto. }
        destruct (py_eq_str status "denied") eqn:Ed.
        { injection Hrun as <- <-. destruct (Hin _ Hk) as [-> Hl].
          rewrite <- Hv, Ea, Ed. auto. }
        destruct (py_in_strs status _) eqn:Ee.
        { injection Hrun as <- <-. destruct (Hin _ Hk) as [-> Hl].
          rewrite <- Hv, Ea, Ed, Ee. auto. }
        destruct (py_eq_str status "pending") eqn:Ep.
        { destruct (Nat.eq_dec k (polls h)) as [->|Hne].
          - rewrite <- Hv, Ea, Ed, Ee, Ep. exact I.
          - destruct (sleep_exn w (naps h2)).
            + injection Hrun as <- <-.
              change (polls (Sleep POLL_INTERVAL :: h2)) with (polls h2) in Hk.
              lia.
            + apply (IH _ _ _ Hrun).
              change (polls (Sleep POLL_INTERVAL :: h2)) with (polls h2).
              lia. }
        injection Hrun as <- <-. destruct (Hin _ Hk) as [-> Hl].
        rewrite <- Hv, Ea, Ed, Ee, Ep. auto.
      * injection Hrun as <- <-. destruct (Hin _ Hk) as [-> Hl].
        unfold settles. rewrite <- Hv. auto.
    + injection Hrun as <- <-.
      assert (k = polls h) as -> by lia.
      unfold settles. rewrite <- Hv. split; [reflexivity | lia].
    + injection Hrun as <- <-.
      (* the poller never runs out of fuel *)
      exfalso. clear - Hv. unfold polled in Hv.
      destruct (get_reply w (polls h)) as [c [|[]]|e];
        try destruct (c =? 200)%Z; try destruct (is_Exception e); discriminate.
Qed.

(** An allow decision comes from a poll that returned success with status
    "approved". *)
Lemma wait_loop_allow w token request_id start_time fuel :
  forall h h',
    wait_loop w fuel token request_id start_time h = (Val true, h') ->
    exists h0 h1,
      poll_auth_status w token request_id h0 = (Val (true, PStr "approved"), h1)
      /\ h' = Log MsgApproved :: h1.
Proof.
  induction fuel as [|fuel IH]; intros h h' Hrun.
  - discriminate.
  - rewrite wait_loop_pass in Hrun.
    destruct (Qgtb _ _); [discriminate|].
    destruct (poll_auth_status w token request_id (ClockRead :: h))
      as [[[success status]| |] h2] eqn:Hpoll; try discriminate.
    destruct success; cbn [negb] in Hrun; [|discriminate].
    destruct (py_eq_str status "approved") eqn:Ea.
    { injection Hrun as <-. apply py_eq_str_true in Ea. subst status.
      eauto. }
    destruct (py_eq_str status "denied"); [discriminate|].
    destruct (py_in_strs status _); [discriminate|].
    destruct (py_eq_str status "pending"); [|discriminate].
    destruct (sleep_exn w (naps h2)); [discriminate|].
    eapply IH; eauto.
Qed.

(** ** Log lines do not steer the run

    The oracle is indexed by the number of earlier polls, clock readings and
    sleeps, so two histories with the same three counts continue alike. *)

Lemma same_counts_cons e h1 h2 :
  same_counts h1 h2 -> same_counts (e :: h1) (e :: h2).
Proof.
  unfold same_counts, polls, readings, naps. intros (Hp & Hr & Hn).
  rewrite !count_cons, Hp, Hr, Hn. auto.
Qed.

Lemma same_counts_quiet l1 l2 h :
  quiet l1 -> quiet l2 -> same_counts (l1 ++ h) (l2 ++ h).
Proof.
  intros H1 H2. unfold same_counts, polls, readings, naps.
  rewrite !count_app.
  pose proof (quiet_polls _ H1). pose proof (quiet_polls _ H2).
  pose proof (quiet_readings _ H1). pose proof (quiet_readings _ H2).
  pose proof (quiet_naps _ H1). pose proof (quiet_naps _ H2).
  unfold polls, readings, naps in *. lia.
Qed.

Lemma oblivious_ret {A} (a : A) : oblivious (ret a).
Proof. intros h1 h2 H. split; [reflexivity | exact H]. Qed.

Lemma oblivious_raise {A} e : oblivious (@raise A e).
Proof. intros h1 h2 H. split; [reflexivity | exact H]. Qed.

Lemma oblivious_diverge {A} : oblivious (@diverge A).
Proof. intros h1 h2 H. split; [reflexivity | exact H]. Qed.

Lemma oblivious_emit e : oblivious (emit e).
Proof.
  intros h1 h2 H. split; [reflexivity | apply same_counts_cons, H].
Qed.

Lemma oblivious_bind {A B} (m : M A) (k : A -> M B) :
  oblivious m -> (forall a, oblivious (k a)) -> oblivious (bind m k).
Proof.
  intros Hm Hk h1 h2 H. unfold bind.
  destruct (Hm h1 h2 H) as [Hv Hc].
  destruct (m h1) as [o1 h1'], (m h2) as [o2 h2']. cbn [fst snd] in *.
  subst o2. destruct o1 as [a|e|]; cbn [fst snd]; auto.
  apply Hk, Hc.
Qed.

Lemma oblivious_try {A} (m : M A) handler :
  oblivious m ->
  (forall e k, handler e = Some k -> oblivious k) ->
  oblivious (try_except m handler).
Proof.
  intros Hm Hk h1 h2 H. unfold try_except.
  destruct (Hm h1 h2 H) as [Hv Hc].
  destruct (m h1) as [o1 h1'], (m h2) as [o2 h2']. cbn [fst snd] in *.
  subst o2. destruct o1 as [a|e|]; cbn [fst snd]; auto.
  destruct (handler e) as [k|] eqn:He; cbn [fst snd]; auto.
  apply (Hk e k He), Hc.
Qed.

Lemma oblivious_time_time w : oblivious (time_time w).
Proof.
  intros h1 h2 H. unfold time_time. cbn [fst snd].
  destruct H as (Hp & Hr & Hn). rewrite Hr.
  split; [reflexivity | apply same_counts_cons; repeat split; assumption].
Qed.

Lemma oblivious_time_sleep w secs : oblivious (time_sleep w secs).
Proof.
  intros h1 h2 H. unfold time_sleep.
  pose proof H as (Hp & Hr & Hn). rewrite Hn.
  destruct (sleep_exn w (naps h2)); cbn [fst snd];
    (split; [reflexivity | apply same_counts_cons, H]).
Qed.

Lemma oblivious_requests_get w token request_id :
  oblivious (requests_get w token request_id).
Proof.
  intros h1 h2 H. unfold requests_get.
  pose proof H as (Hp & Hr & Hn). rewrite Hp.
  destruct (get_reply w (polls h2)); cbn [fst snd];
    (split; [reflexivity | apply same_counts_cons, H]).
Qed.

Lemma oblivious_requests_post w token username hostname command :
  oblivious (requests_post w token username hostname command).
Proof.
  intros h1 h2 H. unfold requests_post.
  destruct (post_reply w); cbn [fst snd];
    (split; [reflexivity | apply same_counts_cons, H]).
Qed.

Lemma oblivious_if {A} (b : bool) (m1 m2 : M A) :
  oblivious m1 -> oblivious m2 -> oblivious (if b then m1 else m2).
Proof. destruct b; auto. Qed.

Create HintDb oblivious.
#[local] Hint Resolve oblivious_ret oblivious_raise oblivious_diverge
  oblivious_emit oblivious_time_time oblivious_time_sleep
  oblivious_requests_get oblivious_requests_post : oblivious.

Ltac oblivious_step :=
  match goal with
  | |- oblivious (bind _ _) => apply oblivious_bind; [|intro]
  | |- oblivious (try_except _ _) => apply oblivious_try
  | |- oblivious (if _ then _ else _) => apply oblivious_if
  | |- oblivious (let '(_, _) := ?p in _) => destruct p
  | |- oblivious (match ?x with _ => _ end) => destruct x
  | |- oblivious (log _) => apply oblivious_emit
  | |- forall e k, _ = Some k -> oblivious k =>
      let e := fresh "e" in let k := fresh "k" in let H := fresh "H" in
      intros e k H; destruct e; cbn in H;
      try discriminate; injection H as <-
  | |- _ => solve [auto with oblivious]
  end.

Lemma oblivious_poll_auth_status w token request_id :
  oblivious (poll_auth_status w token request_id).
Proof.
  unfold poll_auth_status, response_json, py_get.
  repeat oblivious_step.
Qed.

Lemma oblivious_create_auth_request w token command :
  oblivious (create_auth_request w token command).
Proof.
  unfold create_auth_request, get_hostname, response_json, py_get.
  repeat oblivious_step.
Qed.

Lemma oblivious_wait_loop w token request_id start_time fuel :
  oblivious (wait_loop w fuel token request_id start_time).
Proof.
  induction fuel as [|fuel IH]; cbn [wait_loop].
  - apply oblivious_diverge.
  - pose proof (oblivious_poll_auth_status w token request_id).
    repeat oblivious_step; assumption.
Qed.

Lemma oblivious_wait_for_auth_response w fuel token request_id :
  oblivious (wait_for_auth_response w fuel token request_id).
Proof.
  unfold wait_for_auth_response.
  apply oblivious_bind; [apply oblivious_time_time | intro start_time].
  apply oblivious_bind; [apply oblivious_emit | intros _].
  apply oblivious_wait_loop.
Qed.

(** ** Runs that never reach the polling loop *)

Lemma credential_never_diverges f : credential f <> Diverge.
Proof.
  destruct f as [|mode e|mode text]; simpl; try discriminate.
  - destruct (is_Exception e); discriminate.
  - destruct (strip text =? ""); discriminate.
Qed.

Lemma polls_start w : polls (start_history w) = 0%nat.
Proof. reflexivity. Qed.

Lemma posts_start w : posts (start_history w) = 0%nat.
Proof. reflexivity. Qed.

Lemma run_raise w fuel e h :
  main w fuel [] = (Raise e, h) ->
  exit_status w fuel = Some 1%Z /\
  exists l, transcript w fuel = l ++ h /\ quiet l.
Proof.
  intro Hm. unfold exit_status, transcript, run. rewrite Hm.
  destruct (is_KeyboardInterrupt e); [|destruct (is_Exception e)];
    (split; [reflexivity | prefix_of_history]).
Qed.

(** A run in which the credential is not obtained makes no network call. *)
Lemma run_without_token w fuel :
  (forall tok, credential (jwt_file w) <> Val (Some tok)) ->
  exit_status w fuel = Some 1%Z
  /\ posts (transcript w fuel) = 0%nat /\ polls (transcript w fuel) = 0%nat.
Proof.
  intro Hnone.
  pose proof (read_jwt_token_value w (start_history w)) as Hv.
  destruct (read_jwt_token_quiet w (start_history w)) as (l & Hl & Hq).
  pose proof (main_stage_token w fuel) as Hm.
  destruct (read_jwt_token w (start_history w)) as [r h1].
  cbn [fst snd] in Hv, Hl. subst h1.
  assert (Hposts : posts (l ++ start_history w) = 0%nat)
    by (unfold posts; rewrite count_app; fold (posts l);
        rewrite (quiet_posts l Hq); reflexivity).
  assert (Hpolls : polls (l ++ start_history w) = 0%nat)
    by (unfold polls; rewrite count_app; fold (polls l);
        rewrite (quiet_polls l Hq); reflexivity).
  destruct r as [[tok|]|e|].
  - exfalso. apply (Hnone tok). congruence.
  - unfold exit_status, transcript, run. rewrite Hm. cbn [fst snd].
    repeat split; assumption.
  - destruct (run_raise w fuel e _ Hm) as (He & l' & -> & Hq').
    repeat split; [exact He | |].
    + unfold posts. rewrite count_app. fold (posts l').
      rewrite (quiet_posts l' Hq'). exact Hposts.
    + unfold polls. rewrite count_app. fold (polls l').
      rewrite (quiet_polls l' Hq'). exact Hpolls.
  - exfalso. apply (credential_never_diverges (jwt_file w)). congruence.
Qed.

(** A run in which request creation yields a falsy value issues no poll. *)
Lemma run_without_request w fuel v :
  created (post_reply w) = Val v -> truthy v = false ->
  exit_status w fuel = Some 1%Z /\ polls (transcript w fuel) = 0%nat.
Proof.
  intros Hc Hf.
  destruct (credential (jwt_file w)) as [[tok|]| |] eqn:Hcred;
    try (assert (Hnone : forall t, credential (jwt_file w) <> Val (Some t))
           by (intro t; rewrite Hcred; discriminate);
         destruct (run_without_token w fuel Hnone) as (He & _ & Hp);
         split; assumption).
  pose proof (read_jwt_token_value w (start_history w)) as Hv.
  destruct (read_jwt_token_quiet w (start_history w)) as (l & Hl & Hq).
  pose proof (main_stage_token w fuel) as Hm.
  destruct (read_jwt_token w (start_history w)) as [r h1].
  cbn [fst snd] in Hv, Hl. subst h1. rewrite Hcred in Hv. subst r.
  assert (Hpolls : polls (l ++ start_history w) = 0%nat)
    by (unfold polls; rewrite count_app; fold (polls l);
        rewrite (quiet_polls l Hq); reflexivity).
  destruct (tok =? "").
  { unfold exit_status, transcript, run. rewrite Hm. cbn [fst snd].
    split; [reflexivity | assumption]. }
  pose proof (create_auth_request_value w tok (command_line w)
                (l ++ start_history w)) as Hcv.
  destruct (create_auth_request_history w tok (command_line w)
              (l ++ start_history w)) as (l2 & Hl2 & Hp2 & _).
  destruct (create_auth_request w tok (command_line w) (l ++ start_history w))
    as [r2 h2].
  cbn [fst snd] in Hcv, Hl2. subst h2. rewrite Hc in Hcv. subst r2.
  rewrite Hf in Hm.
  unfold exit_status, transcript, run. rewrite Hm. cbn [fst snd].
  split; [reflexivity|].
  rewrite polls_cons_quiet. unfold polls. rewrite count_app.
  fold (polls l2). fold (polls (l ++ start_history w)). lia.
Qed.

Lemma creation_fails_created r : creation_fails r -> created r = Val PNone.
Proof.
  intros [code b Hc| | | |v Hv]; simpl; try reflexivity.
  - apply Z.eqb_neq in Hc. destruct b as [|[]]; try reflexivity.
    rewrite Hc. reflexivity.
  - destruct v; try reflexivity. simpl in Hv. rewrite Hv. reflexivity.
Qed.

Lemma credential_unavailable_none f :
  credential_unavailable f -> credential f = Val None.
Proof.
  intros [|mode e He|mode text Ht]; simpl.
  - reflexivity.
  - rewrite He. reflexivity.
  - rewrite (strip_all_space text Ht). reflexivity.
Qed.

(** ** Claims about the setup stages *)

(** C5. The credential loader returns None whenever the credential file
    does not exist, cannot be read or holds only whitespace; the run then
    exits with status 1 without a creation call or a poll call. *)
Theorem missing_credential_denies_offline (w : world) (fuel : nat) :
  credential_unavailable (jwt_file w) ->
  (forall h, fst (read_jwt_token w h) = Val None)
  /\ exit_status w fuel = Some 1%Z
  /\ posts (transcript w fuel) = 0%nat
  /\ polls (transcript w fuel) = 0%nat.
Proof.
  intro H. apply credential_unavailable_none in H.
  split.
  - intro h. rewrite read_jwt_token_value. exact H.
  - apply run_without_token. intro tok. rewrite H. discriminate.
Qed.

Lemma missing_credential_denies_offline_witness :
  credential_unavailable (jwt_file tokenless_world)
  /\ exit_status tokenless_world 4 = Some 1%Z
  /\ posts (transcript tokenless_world 4) = 0%nat.
Proof.
  split.
  - simpl. constructor.
  - destruct (missing_credential_denies_offline tokenless_world 4)
      as (_ & Hexit & Hposts & _).
    + simpl. constructor.
    + split; assumption.
Defined.

(** C10. A 201 answer whose body carries a falsy request_id (empty string,
    null, ...) is handled as a failed creation: exit status 1 and no poll
    call. *)
Theorem falsy_request_id_denies (w : world) (fuel : nat)
  (d : list (string * pyval)) (v : pyval) :
  post_reply w = Response 201 (Parsed (PDict d)) ->
  dict_lookup d "request_id" = Some v ->
  truthy v = false ->
  (forall token command h,
      fst (create_auth_request w token command h) = Val v)
  /\ exit_status w fuel = Some 1%Z
  /\ polls (transcript w fuel) = 0%nat.
Proof.
  intros Hr Hd Hf.
  assert (Hc : created (post_reply w) = Val v)
    by (rewrite Hr; simpl; rewrite Hd; reflexivity).
  split.
  - intros. rewrite create_auth_request_value. exact Hc.
  - apply (run_without_request w fuel v Hc Hf).
Qed.

Lemma falsy_request_id_denies_witness :
  truthy (PStr "") = false
  /\ exit_status nameless_world 4 = Some 1%Z
  /\ polls (transcript nameless_world 4) = 0%nat.
Proof.
  split; [reflexivity|].
  apply (falsy_request_id_denies nameless_world 4
           [("request_id", PStr "")] (PStr ""));
    reflexivity.
Defined.

(** C4. [create_auth_request] returns None for every answer whose status is
    not 201, for a connection failure or a timeout, and for a 201 answer
    whose body does not parse or has no request_id; the run then exits with
    status 1 and no poll call is issued. *)
Theorem failed_creation_denies_unpolled (w : world) (fuel : nat) :
  creation_fails (post_reply w) ->
  (forall token command h,
      fst (create_auth_request w token command h) = Val PNone)
  /\ exit_status w fuel = Some 1%Z
  /\ polls (transcript w fuel) = 0%nat.
Proof.
  intro H. apply creation_fails_created in H.
  split.
  - intros. rewrite create_auth_request_value. exact H.
  - apply (run_without_request w fuel PNone H). reflexivity.
Qed.

Lemma failed_creation_denies_unpolled_witness :
  creation_fails (post_reply refusing_world)
  /\ exit_status refusing_world 4 = Some 1%Z
  /\ polls (transcript refusing_world 4) = 0%nat.
Proof.
  assert (H : creation_fails (post_reply refusing_world))
    by (apply cf_status; discriminate).
  split; [exact H|].
  apply (failed_creation_denies_unpolled refusing_world 4 H).
Defined.

(** ** Claims about a single poll *)

(** C8, as the code has it. For a 200 answer whose body parses,
    [poll_auth_status] returns success with the status "unknown" when the
    body is a JSON object without a status key, and the failure outcome
    (False, "error") when the body is not an object at all (array, string,
    number, boolean or null). *)
Theorem missing_status_defaults_to_unknown (w : world) (token : string)
  (request_id : pyval) (h : history) (v : pyval) :
  get_reply w (polls h) = Response 200 (Parsed v) ->
  (forall d, v = PDict d -> dict_lookup d "status" = None ->
     fst (poll_auth_status w token request_id h)
     = Val (true, PStr "unknown"))
  /\ ((forall d, v <> PDict d) ->
      fst (poll_auth_status w token request_id h)
      = Val (false, PStr "error")).
Proof.
  intro Hr. rewrite poll_auth_status_value, Hr. split.
  - intros d -> Hd. simpl. rewrite Hd. reflexivity.
  - intro Hv. destruct v; try reflexivity.
    exfalso. apply (Hv d). reflexivity.
Qed.

Lemma missing_status_defaults_to_unknown_witness :
  (get_reply statusless_world 0
   = Response 200 (Parsed (PDict [("state", PStr "ok")]))
   /\ fst (poll_auth_status statusless_world "tok" (PStr "req-1") [])
      = Val (true, PStr "unknown"))
  /\ (get_reply array_world 0 = Response 200 (Parsed (PList []))
      /\ fst (poll_auth_status array_world "tok" (PStr "req-1") [])
         = Val (false, PStr "error")).
Proof.
  split; (split; [reflexivity|]).
  - apply (proj1 (missing_status_defaults_to_unknown statusless_world "tok"
                    (PStr "req-1") [] (PDict [("state", PStr "ok")])
                    eq_refl) [("state", PStr "ok")]); reflexivity.
  - apply (proj2 (missing_status_defaults_to_unknown array_world "tok"
                    (PStr "req-1") [] (PList []) eq_refl)).
    intros d. discriminate.
Defined.

(** C8, as stated, fails: a body that parses but is not an object (here the
    empty JSON array) has no status field, and the poll is reported as a
    failure. *)
Lemma array_body_is_poll_failure :
  get_reply array_world 0 = Response 200 (Parsed (PList []))
  /\ lacks_field (PList []) "status"
  /\ fst (poll_auth_status array_world "tok" (PStr "req-1") [])
     = Val (false, PStr "error")
  /\ fst (poll_auth_status array_world "tok" (PStr "req-1") [])
     <> Val (true, PStr "unknown").
Proof.
  repeat split. discriminate.
Qed.

(** ** The permission warning *)

Lemma main_after_token w fuel :
  main w fuel [] =
  bind (read_jwt_token w) (after_token w fuel) (start_history w).
Proof. reflexivity. Qed.

Lemma exit_status_of_main w fuel :
  exit_status w fuel = exit_of (fst (main w fuel [])).
Proof.
  unfold exit_status, run.
  destruct (main w fuel []) as [[code|e|] h]; try reflexivity.
  destruct e; reflexivity.
Qed.

Lemma oblivious_after_token w fuel token : oblivious (after_token w fuel token).
Proof.
  unfold after_token.
  pose proof (oblivious_create_auth_request w).
  pose proof (oblivious_wait_for_auth_response w fuel).
  repeat oblivious_step; auto.
Qed.

Lemma credential_chmod mode f : credential (chmod mode f) = credential f.
Proof. destruct f; reflexivity. Qed.

Lemma read_jwt_token_warnings w mode h :
  st_mode_of (jwt_file w) = Some mode ->
  warnings (snd (read_jwt_token w h))
  = (warnings h + if (Z.land mode 63 =? 0)%Z then 0 else 1)%nat.
Proof.
  unfold_py. unfold warnings.
  destruct (jwt_file w) as [|m e|m text]; simpl; intro Hm;
    try discriminate; injection Hm as ->.
  - destruct (Z.land mode 63 =? 0)%Z; simpl; destruct e; simpl;
      rewrite ?count_cons; simpl; lia.
  - destruct (Z.land mode 63 =? 0)%Z; simpl;
      destruct (strip text =? ""); simpl;
      rewrite ?count_cons; simpl; lia.
Qed.

(** C6, as the code has it. Reading the credential file logs the warning if
    and only if a group or other permission bit (mask 0o077) is set in the
    file mode; the mode changes neither the returned credential nor the exit
    status. *)
Theorem group_other_bits_warn_only (w : world) (mode : Z) (fuel : nat)
  (h : history) :
  st_mode_of (jwt_file w) = Some mode ->
  (Z.land mode 63 <> 0%Z <->
   warnings (snd (read_jwt_token w h)) = S (warnings h))
  /\ (Z.land mode 63 = 0%Z <->
      warnings (snd (read_jwt_token w h)) = warnings h)
  /\ forall mode',
      let w' := with_jwt_file w (chmod mode' (jwt_file w)) in
      fst (read_jwt_token w' h) = fst (read_jwt_token w h)
      /\ exit_status w' fuel = exit_status w fuel.
Proof.
  intro Hm. rewrite (read_jwt_token_warnings w mode h Hm).
  split; [|split].
  - destruct (Z.eqb_spec (Z.land mode 63) 0); split; intros; try lia.
  - destruct (Z.eqb_spec (Z.land mode 63) 0); split; intros; try lia.
  - intros mode' w'. split.
    + rewrite !read_jwt_token_value. apply credential_chmod.
    + rewrite !exit_status_of_main, !main_after_token. f_equal.
      change (start_history w') with (start_history w).
      change (after_token w' fuel) with (after_token w fuel).
      unfold bind.
      pose proof (read_jwt_token_value w' (start_history w)) as Hv'.
      pose proof (read_jwt_token_value w (start_history w)) as Hv.
      destruct (read_jwt_token_quiet w' (start_history w)) as (l' & Hl' & Hq').
      destruct (read_jwt_token_quiet w (start_history w)) as (l & Hl & Hq).
      destruct (read_jwt_token w' (start_history w)) as [r' h1'].
      destruct (read_jwt_token w (start_history w)) as [r h1].
      cbn [fst snd] in *. subst h1' h1.
      assert (r' = r) as ->
          by (rewrite Hv', Hv; apply credential_chmod).
      destruct r as [token|e|]; try reflexivity.
      apply oblivious_after_token, same_counts_quiet; assumption.
Qed.

Lemma group_other_bits_warn_only_witness :
  st_mode_of (jwt_file approving_world) = Some 384%Z
  /\ warnings (snd (read_jwt_token approving_world [])) = 0%nat
  /\ exit_status (with_jwt_file approving_world
                    (chmod 420 (jwt_file approving_world))) 4
     = exit_status approving_world 4.
Proof.
  destruct (group_other_bits_warn_only approving_world 384 4 [])
    as (_ & Hquiet & Hsame); [reflexivity|].
  split; [reflexivity|]. split.
  - apply Hquiet. reflexivity.
  - apply (Hsame 420%Z).
Defined.

(** C6, as stated, fails: mode 0o700 has the owner-execute bit, which lies
    outside owner read and write, yet no warning is logged. *)
Lemma owner_execute_bit_is_silent :
  st_mode_of (jwt_file executable_world) = Some 448%Z
  /\ beyond_owner_rw 448 <> 0%Z
  /\ warnings (snd (read_jwt_token executable_world [])) = 0%nat
  /\ fst (read_jwt_token executable_world []) = Val (Some "eyJhbGciOi").
Proof. repeat split. discriminate. Qed.

(** ** The polling loop, pass by pass *)

Lemma answers_polled r s : answers r s -> polled r = Val (true, PStr s).
Proof. intros (d & -> & Hd). simpl. rewrite Hd. reflexivity. Qed.

Lemma poll_auth_status_run w token request_id h :
  exists h2,
    poll_auth_status w token request_id h = (polled (get_reply w (polls h)), h2)
    /\ polls h2 = S (polls h) /\ readings h2 = readings h
    /\ naps h2 = naps h.
Proof.
  pose proof (poll_auth_status_value w token request_id h) as Hv.
  destruct (poll_auth_status_history w token request_id h)
    as (l & Hl & Hp & Hr & Hn & _).
  destruct (poll_auth_status w token request_id h) as [o h2].
  cbn [fst snd] in *. subst o h2. eexists. split; [reflexivity|].
  unfold polls, readings, naps in *. rewrite !count_app, Hp, Hr, Hn.
  auto.
Qed.

Lemma Qgtb_false x y : (x <= y)%Q -> Qgtb x y = false.
Proof.
  intro H. unfold Qgtb. apply Qle_bool_iff in H. rewrite H. reflexivity.
Qed.

Lemma Qgtb_true x y : (y < x)%Q -> Qgtb x y = true.
Proof.
  intro H. unfold Qgtb. destruct (Qle_bool x y) eqn:E; [|reflexivity].
  apply Qle_bool_iff in E. exfalso. apply (Qlt_not_le _ _ H E).
Qed.

Lemma Qgtb_spec x y : Qgtb x y = true <-> (y < x)%Q.
Proof.
  split; [|apply Qgtb_true].
  unfold Qgtb. intro H. apply Qnot_le_lt. intro Hle.
  apply Qle_bool_iff in Hle. rewrite Hle in H. discriminate.
Qed.

Lemma wait_loop_deadline_pass w fuel token request_id start_time h :
  (REQUEST_TIMEOUT < clock w (readings h) - start_time)%Q ->
  wait_loop w (S fuel) token request_id start_time h
  = (Val false, Log MsgDeadline :: ClockRead :: h).
Proof.
  intro H. rewrite wait_loop_pass, (Qgtb_true _ _ H). reflexivity.
Qed.

Lemma wait_loop_pending_pass w token request_id start_time h :
  (clock w (readings h) - start_time <= REQUEST_TIMEOUT)%Q ->
  answers (get_reply w (polls h)) "pending" ->
  sleep_exn w (naps h) = None ->
  exists h3,
    (forall fuel,
        wait_loop w (S fuel) token request_id start_time h
        = wait_loop w fuel token request_id start_time h3)
    /\ polls h3 = S (polls h) /\ readings h3 = S (readings h)
    /\ naps h3 = S (naps h).
Proof.
  intros Ht Ha Hs.
  destruct (poll_auth_status_run w token request_id (ClockRead :: h))
    as (h2 & Hpoll & Hp & Hr & Hn).
  change (polls (ClockRead :: h)) with (polls h) in *.
  change (naps (ClockRead :: h)) with (naps h) in *.
  change (readings (ClockRead :: h)) with (S (readings h)) in *.
  exists (Sleep POLL_INTERVAL :: h2). split.
  - intro fuel. rewrite wait_loop_pass, (Qgtb_false _ _ Ht), Hpoll.
    rewrite (answers_polled _ _ Ha). cbn.
    rewrite Hn, Hs. reflexivity.
  - unfold polls, readings, naps in *. rewrite !count_cons. cbn.
    auto.
Qed.

Lemma wait_loop_approved_pass w fuel token request_id start_time h :
  (clock w (readings h) - start_time <= REQUEST_TIMEOUT)%Q ->
  answers (get_reply w (polls h)) "approved" ->
  exists h',
    wait_loop w (S fuel) token request_id start_time h = (Val true, h')
    /\ polls h' = S (polls h).
Proof.
  intros Ht Ha. rewrite wait_loop_pass, (Qgtb_false _ _ Ht).
  destruct (poll_auth_status_run w token request_id (ClockRead :: h))
    as (h2 & -> & Hp & Hr & Hn).
  change (polls (ClockRead :: h)) with (polls h) in *.
  rewrite (answers_polled _ _ Ha). cbn.
  eexists. split; [reflexivity|]. rewrite polls_cons_quiet. exact Hp.
Qed.

Lemma wait_loop_pending_passes w token request_id start_time n :
  forall h,
    (forall j, (j < n)%nat ->
       answers (get_reply w (polls h + j)) "pending") ->
    (forall j, (j < n)%nat -> sleep_exn w (naps h + j) = None) ->
    (forall j, (j < n)%nat ->
       (clock w (readings h + j) - start_time <= REQUEST_TIMEOUT)%Q) ->
    exists hn,
      (forall fuel,
          wait_loop w (n + fuel) token request_id start_time h
          = wait_loop w fuel token request_id start_time hn)
      /\ polls hn = (polls h + n)%nat /\ readings hn = (readings h + n)%nat
      /\ naps hn = (naps h + n)%nat.
Proof.
  induction n as [|n IH]; intros h Ha Hs Ht.
  - exists h. rewrite !Nat.add_0_r. auto.
  - destruct (wait_loop_pending_pass w token request_id start_time h)
      as (h3 & Hrun & Hp & Hr & Hn).
    + specialize (Ht 0%nat). rewrite Nat.add_0_r in Ht. apply Ht. lia.
    + specialize (Ha 0%nat). rewrite Nat.add_0_r in Ha. apply Ha. lia.
    + specialize (Hs 0%nat). rewrite Nat.add_0_r in Hs. apply Hs. lia.
    + destruct (IH h3) as (hn & Hrun' & Hp' & Hr' & Hn').
      * intros j Hj. rewrite Hp.
        replace (S (polls h) + j)%nat with (polls h + S j)%nat by lia.
        apply Ha. lia.
      * intros j Hj. rewrite Hn.
        replace (S (naps h) + j)%nat with (naps h + S j)%nat by lia.
        apply Hs. lia.
      * intros j Hj. rewrite Hr.
        replace (S (readings h) + j)%nat with (readings h + S j)%nat by lia.
        apply Ht. lia.
      * exists hn. split.
        { intro fuel. change (S n + fuel)%nat with (S (n + fuel)).
          rewrite Hrun, Hrun'. reflexivity. }
        repeat split; lia.
Qed.

Lemma outside_known_verdict status :
  (forall s, In s known_statuses -> status <> PStr s) ->
  verdict status = Some false.
Proof.
  intro H. unfold verdict.
  assert (Hne : forall s, In s known_statuses -> py_eq_str status s = false).
  { intros s Hs. destruct (py_eq_str status s) eqn:E; [|reflexivity].
    apply py_eq_str_true in E. exfalso. exact (H s Hs E). }
  rewrite (Hne "approved"), (Hne "denied") by (simpl; auto 10).
  unfold py_in_strs. cbn [existsb].
  rewrite (Hne "expired"), (Hne "timeout"), (Hne "pending") by (simpl; auto 10).
  reflexivity.
Qed.

(** ** Claims about the polling loop *)

(** C2. Whatever poll of a run reports failure, the run returns deny and
    that poll is its last one, however much of the deadline is left. *)
Theorem failed_poll_is_terminal (w : world) (fuel : nat) (token : string)
  (request_id : pyval) (h h' hk : history) (r : outcome bool)
  (status : pyval) :
  wait_for_auth_response w fuel token request_id h = (r, h') ->
  (polls h <= polls hk < polls h')%nat ->
  fst (poll_auth_status w token request_id hk) = Val (false, status) ->
  r = Val false /\ polls h' = S (polls hk).
Proof.
  intros Hrun Hk Hfail.
  rewrite wait_for_auth_response_unfold in Hrun.
  pose proof (wait_loop_polls _ _ _ _ _ _ _ _ Hrun (polls hk) Hk) as Hs.
  rewrite poll_auth_status_value in Hfail. rewrite Hfail in Hs.
  exact Hs.
Qed.

Lemma failed_poll_is_terminal_witness :
  fst (poll_auth_status failing_world "tok" (PStr "req-1")
         [HttpGet "tok" (PStr "req-1")]) = Val (false, PStr "error")
  /\ fst (wait_for_auth_response failing_world 5 "tok" (PStr "req-1") [])
     = Val false
  /\ polls (snd (wait_for_auth_response failing_world 5 "tok"
                   (PStr "req-1") [])) = 2%nat.
Proof.
  split; [reflexivity|].
  apply (failed_poll_is_terminal failing_world 5 "tok" (PStr "req-1") []
           (snd (wait_for_auth_response failing_world 5 "tok"
                   (PStr "req-1") []))
           [HttpGet "tok" (PStr "req-1")]
           (fst (wait_for_auth_response failing_world 5 "tok"
                   (PStr "req-1") []))
           (PStr "error")).
  - apply surjective_pairing.
  - vm_compute. lia.
  - reflexivity.
Defined.

(** C7. A poll that succeeds with a status outside pending, approved,
    denied, expired and timeout ends the run with deny, and a run returns
    allow only after a poll that succeeded with the status "approved". *)
Theorem unknown_status_denies (w : world) (fuel : nat) (token : string)
  (request_id : pyval) (h h' : history) (r : outcome bool) :
  wait_for_auth_response w fuel token request_id h = (r, h') ->
  (forall hk status,
      (polls h <= polls hk < polls h')%nat ->
      fst (poll_auth_status w token request_id hk) = Val (true, status) ->
      (forall s, In s known_statuses -> status <> PStr s) ->
      r = Val false /\ polls h' = S (polls hk))
  /\ (r = Val true ->
      exists h0 h1,
        poll_auth_status w token request_id h0
        = (Val (true, PStr "approved"), h1)
        /\ h' = Log MsgApproved :: h1).
Proof.
  intro Hrun. rewrite wait_for_auth_response_unfold in Hrun. split.
  - intros hk status Hk Hok Hout.
    pose proof (wait_loop_polls _ _ _ _ _ _ _ _ Hrun (polls hk) Hk) as Hs.
    rewrite poll_auth_status_value in Hok. rewrite Hok in Hs.
    unfold settles in Hs. rewrite (outside_known_verdict _ Hout) in Hs.
    exact Hs.
  - intros ->. apply (wait_loop_allow _ _ _ _ _ _ _ Hrun).
Qed.

Lemma unknown_status_denies_witness :
  fst (poll_auth_status weird_world "tok" (PStr "req-1") [])
  = Val (true, PStr "weird_value")
  /\ fst (wait_for_auth_response weird_world 5 "tok" (PStr "req-1") [])
     = Val false
  /\ polls (snd (wait_for_auth_response weird_world 5 "tok"
                   (PStr "req-1") [])) = 1%nat.
Proof.
  split; [reflexivity|].
  apply (proj1 (unknown_status_denies weird_world 5 "tok" (PStr "req-1") []
                  (snd (wait_for_auth_response weird_world 5 "tok"
                          (PStr "req-1") []))
                  (fst (wait_for_auth_response weird_world 5 "tok"
                          (PStr "req-1") []))
                  (surjective_pairing _))
           [] (PStr "weird_value")).
  - vm_compute. lia.
  - reflexivity.
  - intros s Hs E. injection E as <-. simpl in Hs.
    repeat (destruct Hs as [Hs|Hs]; [discriminate|]). exact Hs.
Defined.

(** C9. When the polls answer pending, pending, approved and each deadline
    check finds the deadline not passed, the run returns allow after exactly
    three poll calls. *)
Theorem pending_pending_approved_allows (w : world) (fuel : nat)
  (token : string) (request_id : pyval) (h : history) :
  answers (get_reply w (polls h)) "pending" ->
  answers (get_reply w (polls h + 1)) "pending" ->
  answers (get_reply w (polls h + 2)) "approved" ->
  sleep_exn w (naps h) = None ->
  sleep_exn w (naps h + 1) = None ->
  (forall j, (j < 3)%nat ->
     (clock w (readings h + 1 + j) - clock w (readings h)
      <= REQUEST_TIMEOUT)%Q) ->
  (3 <= fuel)%nat ->
  exists h',
    wait_for_auth_response w fuel token request_id h = (Val true, h')
    /\ polls h' = (polls h + 3)%nat.
Proof.
  intros Ha0 Ha1 Ha2 Hs0 Hs1 Ht Hfuel.
  rewrite wait_for_auth_response_unfold.
  set (h0 := Log MsgWaiting :: ClockRead :: h).
  assert (Hp0 : polls h0 = polls h) by reflexivity.
  assert (Hn0 : naps h0 = naps h) by reflexivity.
  assert (Hr0 : readings h0 = (readings h + 1)%nat)
    by (unfold h0, readings; rewrite !count_cons; cbn; lia).
  replace fuel with (2 + S (fuel - 3))%nat by lia.
  destruct (wait_loop_pending_passes w token request_id
              (clock w (readings h)) 2 h0)
    as (h2 & Hrun & Hp & Hr & Hn).
  - intros j Hj. rewrite Hp0.
    destruct j as [|[|j]]; [rewrite Nat.add_0_r; assumption | assumption | lia].
  - intros j Hj. rewrite Hn0.
    destruct j as [|[|j]]; [rewrite Nat.add_0_r; assumption | assumption | lia].
  - intros j Hj. rewrite Hr0. apply Ht. lia.
  - rewrite Hrun.
    destruct (wait_loop_approved_pass w (fuel - 3) token request_id
                (clock w (readings h)) h2) as (h' & -> & Hp').
    + rewrite Hr, Hr0. apply Ht. lia.
    + rewrite Hp, Hp0. assumption.
    + exists h'. split; [reflexivity | lia].
Qed.

Lemma pending_pending_approved_allows_witness :
  answers (get_reply approving_world 2) "approved"
  /\ exists h',
      wait_for_auth_response approving_world 3 "tok" (PStr "req-1") []
      = (Val true, h')
      /\ polls h' = 3%nat.
Proof.
  assert (Hp : answers (status_body "pending") "pending")
    by (eexists; split; reflexivity).
  assert (Ha : answers (status_body "approved") "approved")
    by (eexists; split; reflexivity).
  split; [exact Ha|].
  apply (pending_pending_approved_allows approving_world 3 "tok"
           (PStr "req-1") []); try assumption; try reflexivity.
  intros j Hj. destruct j as [|[|[|j]]]; [| | |lia];
    vm_compute; discriminate.
Defined.

(** ** The local deadline *)

Section Ticking.

(** A clock on which the first check does not come before the start and
    each further check comes at least [POLL_INTERVAL] after the one before,
    as after a sleep of that length. *)
Variable w : world.
Variable r0 : nat.
Hypothesis first_check : (clock w r0 <= clock w (r0 + 1))%Q.
Hypothesis slept :
  forall j, (1 <= j)%nat ->
    (clock w (r0 + j) + POLL_INTERVAL <= clock w (r0 + S j))%Q.

Lemma seventeenth_check_is_late :
  (REQUEST_TIMEOUT < clock w (r0 + 17) - clock w r0)%Q.
Proof.
  unfold REQUEST_TIMEOUT.
  pose proof (slept 1 ltac:(lia)). pose proof (slept 2 ltac:(lia)).
  pose proof (slept 3 ltac:(lia)). pose proof (slept 4 ltac:(lia)).
  pose proof (slept 5 ltac:(lia)). pose proof (slept 6 ltac:(lia)).
  pose proof (slept 7 ltac:(lia)). pose proof (slept 8 ltac:(lia)).
  pose proof (slept 9 ltac:(lia)). pose proof (slept 10 ltac:(lia)).
  pose proof (slept 11 ltac:(lia)). pose proof (slept 12 ltac:(lia)).
  pose proof (slept 13 ltac:(lia)). pose proof (slept 14 ltac:(lia)).
  pose proof (slept 15 ltac:(lia)). pose proof (slept 16 ltac:(lia)).
  unfold POLL_INTERVAL in *. lra.
Qed.

End Ticking.

(** C3, as stated, fails: when every poll takes five seconds to come back
    with "pending", the run still ends in deny, after 5 polls only. *)
Lemma slow_polls_fall_short :
  (forall k, answers (get_reply slow_world k) "pending")
  /\ (forall k, sleep_exn slow_world k = None)
  /\ fst (wait_for_auth_response slow_world 20 "tok" (PStr "req-1") [])
     = Val false
  /\ polls (snd (wait_for_auth_response slow_world 20 "tok"
                   (PStr "req-1") [])) = 5%nat
  /\ ~ (14 <= 5 <= 16)%nat.
Proof.
  split; [intro k; eexists; split; reflexivity|].
  split; [reflexivity|].
  split; [vm_compute; reflexivity|].
  split; [vm_compute; reflexivity | lia].
Qed.

(** ** The exit status *)

Lemma polled_never_diverges r : polled r <> Diverge.
Proof.
  destruct r as [c [|[]]|e]; simpl;
    try destruct (c =? 200)%Z; try destruct (is_Exception e); discriminate.
Qed.

Lemma created_never_diverges r : created r <> Diverge.
Proof.
  destruct r as [c [|[]]|e]; simpl;
    try destruct (c =? 201)%Z; try destruct (is_Exception e); discriminate.
Qed.

(** Once a check past the deadline lies within the fuel, the loop returns. *)
Lemma wait_loop_returns w token request_id start_time fuel :
  forall h n,
    (n < fuel)%nat ->
    (REQUEST_TIMEOUT < clock w (readings h + n) - start_time)%Q ->
    fst (wait_loop w fuel token request_id start_time h) <> Diverge.
Proof.
  induction fuel as [|fuel IH]; intros h n Hn Hlate; [lia|].
  rewrite wait_loop_pass.
  destruct (Qgtb _ _) eqn:Hcheck; [discriminate|].
  destruct n as [|n].
  { rewrite Nat.add_0_r in Hlate. apply Qgtb_true in Hlate. congruence. }
  destruct (poll_auth_status_run w token request_id (ClockRead :: h))
    as (h2 & -> & Hp & Hr & Hnaps).
  pose proof (polled_never_diverges (get_reply w (polls (ClockRead :: h)))).
  destruct (polled _) as [[success status]|e|]; [|discriminate|congruence].
  destruct success; cbn [negb]; [|discriminate].
  destruct (py_eq_str status "approved"); [discriminate|].
  destruct (py_eq_str status "denied"); [discriminate|].
  destruct (py_in_strs status _); [discriminate|].
  destruct (py_eq_str status "pending"); [|discriminate].
  destruct (sleep_exn w (naps h2)); [discriminate|].
  apply (IH _ n); [lia|].
  replace (readings (Sleep POLL_INTERVAL :: h2) + n)%nat
    with (readings h + S n)%nat; [assumption|].
  change (readings (Sleep POLL_INTERVAL :: h2)) with (readings h2).
  rewrite Hr. change (readings (ClockRead :: h)) with (S (readings h)). lia.
Qed.

Lemma exit_zero_iff_allow w fuel :
  exit_status w fuel = Some 0%Z <-> allow_decision w fuel.
Proof.
  rewrite exit_status_of_main, main_stage_token. unfold allow_decision.
  split.
  - destruct (read_jwt_token w (start_history w)) as [[[tok|]|e|] h1];
      try discriminate.
    destruct (tok =? "") eqn:Et; [discriminate|].
    destruct (create_auth_request w tok (command_line w) h1)
      as [[rid|e|] h2] eqn:Ec; try discriminate.
    destruct (truthy rid) eqn:Hr; [|discriminate].
    destruct (wait_for_auth_response w fuel tok rid h2)
      as [[[|]|e|] h3] eqn:Ew; try discriminate.
    intros _. exists tok, h1, rid, h2, h3. rewrite Et, Ec, Ew. auto.
  - intros (tok & h1 & rid & h2 & h3 & -> & -> & -> & -> & ->).
    reflexivity.
Qed.

Lemma allow_has_approved_poll w fuel :
  allow_decision w fuel ->
  exists tok request_id h0 h1,
    poll_auth_status w tok request_id h0 = (Val (true, PStr "approved"), h1).
Proof.
  intros (tok & h1 & rid & h2 & h3 & _ & _ & _ & _ & Hw).
  rewrite wait_for_auth_response_unfold in Hw.
  destruct (wait_loop_allow _ _ _ _ _ _ _ Hw) as (h0 & h1' & Hpoll & _).
  exists tok, rid, h0, h1'. exact Hpoll.
Qed.

Lemma exit_status_binary w fuel code :
  exit_status w fuel = Some code -> code = 0%Z \/ code = 1%Z.
Proof.
  rewrite exit_status_of_main, main_stage_token.
  repeat match goal with
         | |- context [match ?x with _ => _ end] => destruct x
         | |- context [if ?x then _ else _] => destruct x
         end;
    cbn; intro H; try discriminate; injection H as <-; auto.
Qed.

Lemma exit_none_iff_diverge w fuel :
  exit_status w fuel = None <-> fst (main w fuel []) = Diverge.
Proof.
  rewrite exit_status_of_main.
  destruct (fst (main w fuel [])); cbn; split; congruence.
Qed.

Lemma exit_status_returns w fuel :
  (exists n, (n < fuel)%nat
             /\ (REQUEST_TIMEOUT < clock w (S n) - clock w 0)%Q) ->
  exit_status w fuel <> None.
Proof.
  intros (n & Hn & Hlate).
  rewrite exit_none_iff_diverge, main_stage_token.
  pose proof (read_jwt_token_value w (start_history w)) as Hv.
  destruct (read_jwt_token_quiet w (start_history w)) as (l & Hl & Hq).
  destruct (read_jwt_token w (start_history w)) as [r h1].
  cbn [fst snd] in Hv, Hl. subst h1.
  destruct r as [[tok|]|e|]; try discriminate.
  2:{ exfalso. apply (credential_never_diverges (jwt_file w)). congruence. }
  destruct (tok =? ""); [discriminate|].
  pose proof (create_auth_request_value w tok (command_line w)
                (l ++ start_history w)) as Hcv.
  destruct (create_auth_request_history w tok (command_line w)
              (l ++ start_history w)) as (l2 & Hl2 & _ & Hr2 & _).
  destruct (create_auth_request w tok (command_line w) (l ++ start_history w))
    as [r2 h2].
  cbn [fst snd] in Hcv, Hl2. subst h2.
  destruct r2 as [rid|e|]; try discriminate.
  2:{ exfalso. apply (created_never_diverges (post_reply w)). congruence. }
  destruct (truthy rid); [|discriminate].
  assert (Hzero : readings (l2 ++ l ++ start_history w) = 0%nat).
  { unfold readings in *. rewrite !count_app, Hr2.
    fold (readings l). rewrite (quiet_readings l Hq). reflexivity. }
  pose proof (wait_loop_returns w tok rid (clock w 0) fuel
                (Log MsgWaiting :: ClockRead :: l2 ++ l ++ start_history w)
                n Hn) as Hret.
  rewrite wait_for_auth_response_unfold, Hzero.
  destruct (wait_loop w fuel tok rid (clock w 0) _) as [[[|]|e|] h3];
    try discriminate.
  exfalso. apply Hret; [|reflexivity].
  replace (readings (Log MsgWaiting :: ClockRead :: l2 ++ l ++ start_history w)
           + n)%nat with (S n); [assumption|].
  change (readings (Log MsgWaiting :: ClockRead :: l2 ++ l ++ start_history w))
    with (S (readings (l2 ++ l ++ start_history w))).
  rewrite Hzero. reflexivity.
Qed.

(** * Further properties *)

(** ** What [strip] keeps *)

Lemma lstrip_empty_all_space s : lstrip s = "" -> all_space s = true.
Proof.
  induction s as [|c r IH]; simpl.
  - reflexivity.
  - destruct (isspace c); simpl; [exact IH | discriminate].
Qed.

Lemma lstrip_starts s : lstrip s = "" \/ starts_nonspace (lstrip s) = true.
Proof.
  induction s as [|c r IH]; simpl.
  - left. reflexivity.
  - destruct (isspace c) eqn:Hc; [exact IH|].
    right. simpl. rewrite Hc. reflexivity.
Qed.

Lemma rstrip_starts s :
  starts_nonspace s = true -> starts_nonspace (rstrip s) = true.
Proof.
  destruct s as [|c r]; simpl; [discriminate|].
  intro Hc. destruct (rstrip r).
  - apply negb_true_iff in Hc. rewrite Hc. simpl. rewrite Hc. reflexivity.
  - simpl. exact Hc.
Qed.

Lemma rstrip_ends s : rstrip s = "" \/ ends_nonspace (rstrip s) = true.
Proof.
  induction s as [|c r IH]; simpl.
  - left. reflexivity.
  - destruct (rstrip r) as [|c' r'] eqn:Hr.
    + destruct (isspace c) eqn:Hc; [left; reflexivity|].
      right. simpl. rewrite Hc. reflexivity.
    + right. destruct IH as [IH|IH]; [discriminate|].
      simpl in *. exact IH.
Qed.

Lemma starts_nonspace_nonempty s : starts_nonspace s = true -> s <> "".
Proof. destruct s; simpl; [discriminate | intros _; discriminate]. Qed.

Lemma strip_empty_iff s : strip s = "" <-> all_space s = true.
Proof.
  split; [|apply strip_all_space].
  unfold strip. intro H.
  destruct (lstrip_starts s) as [Hl|Hl].
  - apply lstrip_empty_all_space, Hl.
  - apply rstrip_starts, starts_nonspace_nonempty in Hl. contradiction.
Qed.

Lemma strip_trimmed s :
  strip s <> "" ->
  starts_nonspace (strip s) = true /\ ends_nonspace (strip s) = true.
Proof.
  unfold strip. intro H. split.
  - destruct (lstrip_starts s) as [Hl|Hl].
    + rewrite Hl in H. simpl in H. contradiction.
    + apply rstrip_starts, Hl.
  - destruct (rstrip_ends (lstrip s)) as [Hr|Hr]; [contradiction | exact Hr].
Qed.

Lemma lstrip_app_space a s :
  all_space a = true -> lstrip (a ++ s)%string = lstrip s.
Proof.
  induction a as [|c r IH]; simpl; intro H.
  - reflexivity.
  - apply andb_true_iff in H. destruct H as [Hc Hr]. rewrite Hc. auto.
Qed.

Lemma lstrip_fixed s : starts_nonspace s = true -> lstrip s = s.
Proof.
  destruct s as [|c r]; simpl; [discriminate|].
  intro Hc. apply negb_true_iff in Hc. rewrite Hc. reflexivity.
Qed.

Lemma rstrip_all_space s : all_space s = true -> rstrip s = "".
Proof.
  induction s as [|c r IH]; simpl; intro H.
  - reflexivity.
  - apply andb_true_iff in H. destruct H as [Hc Hr].
    rewrite (IH Hr), Hc. reflexivity.
Qed.

Lemma rstrip_app_space s b :
  all_space b = true -> rstrip (s ++ b)%string = rstrip s.
Proof.
  intro Hb. induction s as [|c r IH]; simpl.
  - apply rstrip_all_space, Hb.
  - rewrite IH. reflexivity.
Qed.

Lemma rstrip_fixed s : ends_nonspace s = true -> rstrip s = s.
Proof.
  induction s as [|c r IH]; simpl; [discriminate|].
  destruct r as [|c' r'].
  - intro Hc. apply negb_true_iff in Hc. simpl. rewrite Hc. reflexivity.
  - intro Hr. rewrite (IH Hr). reflexivity.
Qed.

Lemma strip_core a core b :
  all_space a = true -> all_space b = true ->
  starts_nonspace core = true -> ends_nonspace core = true ->
  strip (a ++ core ++ b)%string = core.
Proof.
  intros Ha Hb Hs He. unfold strip.
  rewrite (lstrip_app_space a _ Ha).
  assert (Hs' : starts_nonspace (core ++ b)%string = true)
    by (destruct core; [discriminate | exact Hs]).
  rewrite (lstrip_fixed _ Hs'), (rstrip_app_space core b Hb).
  apply rstrip_fixed, He.
Qed.

(** ** The credential loader, beyond its failures *)

(** X1. For a credential file that can be read, the loader returns None
    exactly when the text is made of whitespace only (the empty file
    included). *)
Theorem loader_rejects_exactly_blank (w : world) (mode : Z) (text : string)
  (h : history) :
  jwt_file w = Content mode text ->
  (fst (read_jwt_token w h) = Val None <-> all_space text = true).
Proof.
  intro Hf. rewrite read_jwt_token_value, Hf. simpl.
  rewrite <- strip_empty_iff.
  destruct (String.eqb_spec (strip text) ""); split; intro H;
    try reflexivity; try assumption; try discriminate; contradiction.
Qed.

Lemma loader_rejects_exactly_blank_witness :
  jwt_file approving_world = Content 384 "eyJhbGciOi"
  /\ (fst (read_jwt_token approving_world []) = Val None
      <-> all_space "eyJhbGciOi" = true).
Proof.
  split; [reflexivity|].
  apply (loader_rejects_exactly_blank approving_world 384 "eyJhbGciOi" []).
  reflexivity.
Defined.

(** X2. A token the loader returns is the text of the file without its
    leading and trailing whitespace: it is never empty and neither starts
    nor ends with a whitespace character. *)
Theorem loader_token_is_trimmed (w : world) (h : history) (tok : string) :
  fst (read_jwt_token w h) = Val (Some tok) ->
  (exists mode text, jwt_file w = Content mode text /\ tok = strip text)
  /\ tok <> ""
  /\ starts_nonspace tok = true
  /\ ends_nonspace tok = true.
Proof.
  rewrite read_jwt_token_value. unfold credential.
  destruct (jwt_file w) as [|mode e|mode text]; try discriminate.
  - destruct (is_Exception e); discriminate.
  - destruct (String.eqb_spec (strip text) "") as [|Hne]; [discriminate|].
    intro H. injection H as <-.
    destruct (strip_trimmed text Hne) as [Hs He].
    repeat split; try assumption. exists mode, text. auto.
Qed.

Lemma loader_token_is_trimmed_witness :
  fst (read_jwt_token padded_world []) = Val (Some "eyJhbGciOi")
  /\ starts_nonspace "eyJhbGciOi" = true
  /\ ends_nonspace "eyJhbGciOi" = true.
Proof.
  split; [reflexivity|].
  destruct (loader_token_is_trimmed padded_world [] "eyJhbGciOi")
    as (_ & _ & Hs & He); [reflexivity|].
  split; assumption.
Defined.

(** X3. Whitespace around the token in the file (a trailing newline, say)
    is dropped and nothing else: a file holding blanks, then a text that
    starts and ends with non-blank characters, then blanks, yields exactly
    that text. *)
Theorem loader_drops_surrounding_space (w : world) (mode : Z)
  (a core b : string) (h : history) :
  jwt_file w = Content mode (a ++ core ++ b)%string ->
  all_space a = true -> all_space b = true ->
  starts_nonspace core = true -> ends_nonspace core = true ->
  fst (read_jwt_token w h) = Val (Some core).
Proof.
  intros Hf Ha Hb Hs He.
  rewrite read_jwt_token_value, Hf. simpl.
  rewrite (strip_core a core b Ha Hb Hs He).
  destruct (String.eqb_spec core "") as [->|]; [discriminate | reflexivity].
Qed.

Lemma loader_drops_surrounding_space_witness :
  jwt_file padded_world
  = Content 384 (" " ++ "eyJhbGciOi" ++ String (ascii_of_nat 10) "")%string
  /\ fst (read_jwt_token padded_world []) = Val (Some "eyJhbGciOi").
Proof.
  split; [reflexivity|].
  apply (loader_drops_surrounding_space padded_world 384
           " " "eyJhbGciOi" (String (ascii_of_nat 10) "") []);
    reflexivity.
Defined.

(** ** The two network helpers *)

Lemma create_auth_request_events w token command h :
  exists l,
    snd (create_auth_request w token command h)
    = l ++ creation_post w token command
        :: Log (MsgCreating (getenv (environ_USER w) "unknown")
                  (hostname_or_unknown w)) :: h
    /\ quiet l.
Proof.
  unfold_py. unfold creation_post, hostname_or_unknown.
  destruct (gethostname w); simpl;
    (destruct (post_reply w) as [code [|v]|e]; simpl;
     [ destruct (code =? 201)%Z; simpl
     | destruct (code =? 201)%Z; simpl; [destruct v; simpl |]
     | destruct e; simpl ]);
    prefix_of_history.
Qed.

Lemma poll_auth_status_events w token request_id h :
  exists l,
    snd (poll_auth_status w token request_id h)
    = l ++ HttpGet token request_id :: h
    /\ quiet l.
Proof.
  unfold_py.
  destruct (get_reply w (polls h)) as [code [|v]|e]; simpl;
    [ destruct (code =? 200)%Z; simpl
    | destruct (code =? 200)%Z; simpl; [destruct v; simpl |]
    | destruct e; simpl ];
    prefix_of_history.
Qed.

(** X4. Whatever the server answers, one call of [create_auth_request]
    sends exactly one POST, carrying the token and the command it was given,
    the user name from USER and the host name, each replaced by "unknown"
    when it cannot be had; everything else it adds to the history is log
    lines. *)
Theorem creation_posts_exactly_once (w : world) (token command : string)
  (h : history) :
  (exists l,
      snd (create_auth_request w token command h)
      = l ++ creation_post w token command
          :: Log (MsgCreating (getenv (environ_USER w) "unknown")
                    (hostname_or_unknown w)) :: h
      /\ quiet l)
  /\ posts (snd (create_auth_request w token command h)) = S (posts h)
  /\ polls (snd (create_auth_request w token command h)) = polls h.
Proof.
  destruct (create_auth_request_events w token command h) as (l & Hl & Hq).
  split; [exists l; auto|].
  rewrite Hl. unfold posts, polls. rewrite !count_app, !count_cons.
  fold (posts l). fold (polls l).
  rewrite (quiet_posts l Hq), (quiet_polls l Hq). split; reflexivity.
Qed.

(** X5. [create_auth_request] returns a truthy value only when the server
    answered 201 with a JSON object, and the value is then the object's
    request_id. *)
Theorem usable_request_id_needs_201 (w : world) (token command : string)
  (h : history) (v : pyval) :
  fst (create_auth_request w token command h) = Val v ->
  truthy v = true ->
  exists d, post_reply w = Response 201 (Parsed (PDict d))
            /\ dict_lookup d "request_id" = Some v.
Proof.
  rewrite create_auth_request_value. unfold created.
  destruct (post_reply w) as [code [|[]]|e];
    try (intro H; injection H as <-; discriminate).
  - destruct (Z.eqb_spec code 201) as [->|];
      [|intro H; injection H as <-; discriminate].
    destruct (dict_lookup d "request_id") as [v'|] eqn:Hd;
      intro H; injection H as <-; [|discriminate].
    intros _. exists d. auto.
  - destruct (is_Exception e); [|discriminate].
    intro H; injection H as <-; discriminate.
Qed.

Lemma usable_request_id_needs_201_witness :
  fst (create_auth_request approving_world "tok" "apt update" [])
  = Val (PStr "req-1")
  /\ exists d, post_reply approving_world = Response 201 (Parsed (PDict d))
               /\ dict_lookup d "request_id" = Some (PStr "req-1").
Proof.
  split; [reflexivity|].
  apply (usable_request_id_needs_201 approving_world "tok" "apt update" []
           (PStr "req-1")); reflexivity.
Defined.

(** X6. [poll_auth_status] reports success exactly for a 200 answer whose
    body is a JSON object, with the object's status, or "unknown" when it
    has none; the status of a reported failure is always "error"; and each
    call sends exactly one GET, for the request id and with the token it
    was given. *)
Theorem poll_succeeds_exactly_on_200_object (w : world) (token : string)
  (request_id : pyval) (h : history) :
  (forall status,
      fst (poll_auth_status w token request_id h) = Val (true, status)
      <-> exists d,
          get_reply w (polls h) = Response 200 (Parsed (PDict d))
          /\ status = match dict_lookup d "status" with
                      | Some v => v
                      | None => PStr "unknown"
                      end)
  /\ (forall status,
         fst (poll_auth_status w token request_id h) = Val (false, status) ->
         status = PStr "error")
  /\ (exists l,
         snd (poll_auth_status w token request_id h)
         = l ++ HttpGet token request_id :: h
         /\ quiet l).
Proof.
  split; [|split; [|apply poll_auth_status_events]].
  - intro status. rewrite poll_auth_status_value. unfold polled.
    destruct (get_reply w (polls h)) as [code [|[]]|e]; split;
      try (intro H; discriminate);
      try (intros (d0 & H & _); discriminate).
    + destruct (Z.eqb_spec code 200) as [->|]; [|discriminate].
      intro H. injection H as <-. exists d. auto.
    + intros (d0 & H & ->). injection H as -> <-. reflexivity.
    + destruct (is_Exception e); discriminate.
  - intro status. rewrite poll_auth_status_value. unfold polled.
    destruct (get_reply w (polls h)) as [code [|[]]|e];
      try (intro H; injection H as <-; reflexivity).
    + destruct (code =? 200)%Z; [discriminate|].
      intro H; injection H as <-; reflexivity.
    + destruct (is_Exception e); [|discriminate].
      intro H; injection H as <-; reflexivity.
Qed.


(** ** The polling loop, event by event *)

Lemma quiet_loop_events token request_id l :
  quiet l -> Forall (loop_event token request_id) l.
Proof.
  unfold quiet. induction l as [|e l IH]; simpl; intro H; constructor.
  - destruct e; simpl in *; try discriminate. exact I.
  - apply IH. destruct (is_log e); [exact H | discriminate].
Qed.

(** One deadline check followed by one poll. *)
Lemma poll_pass_events w token request_id h :
  exists p,
    snd (poll_auth_status w token request_id (ClockRead :: h)) = p ++ h
    /\ Forall (loop_event token request_id) p
    /\ polls p = 1%nat /\ readings p = 1%nat /\ naps p = 0%nat.
Proof.
  destruct (poll_auth_status_events w token request_id (ClockRead :: h))
    as (l & Hl & Hq).
  exists (l ++ [HttpGet token request_id; ClockRead]).
  split; [rewrite Hl, <- app_assoc; reflexivity|].
  split.
  - apply Forall_app. split; [apply quiet_loop_events, Hq|].
    repeat constructor.
  - unfold polls, readings, naps. rewrite !count_app.
    fold (polls l). fold (readings l). fold (naps l).
    rewrite (quiet_polls l Hq), (quiet_readings l Hq), (quiet_naps l Hq).
    repeat split; reflexivity.
Qed.

Lemma wait_loop_events w token request_id start_time fuel :
  forall h r h',
    wait_loop w fuel token request_id start_time h = (r, h') ->
    exists l,
      h' = l ++ h
      /\ Forall (loop_event token request_id) l
      /\ (naps l <= polls l)%nat /\ (polls l <= readings l)%nat.
Proof.
  induction fuel as [|fuel IH]; intros h r h' Hrun.
  - injection Hrun as <- <-. exists []. repeat split; auto.
  - rewrite wait_loop_pass in Hrun.
    destruct (Qgtb _ _).
    { injection Hrun as <- <-. exists [Log MsgDeadline; ClockRead].
      repeat split; [repeat constructor | |]; cbn; lia. }
    destruct (poll_pass_events w token request_id h)
      as (p & Hp & Hev & Hpolls & Hreads & Hnaps).
    destruct (poll_auth_status w token request_id (ClockRead :: h))
      as [o h2]. cbn [snd] in Hp. subst h2.
    assert (Hlog : forall m,
               exists l, Log m :: p ++ h = l ++ h
                         /\ Forall (loop_event token request_id) l
                         /\ (naps l <= polls l)%nat
                         /\ (polls l <= readings l)%nat).
    { intro m. exists (Log m :: p). split; [reflexivity|].
      split; [constructor; [exact I | exact Hev]|].
      unfold polls, readings, naps in *. rewrite !count_cons. cbn. lia. }
    destruct o as [[success status]|e|];
      [|injection Hrun as <- <-; exists p; repeat split; auto; lia ..].
    destruct success; cbn [negb] in Hrun;
      [|injection Hrun as <- <-; apply Hlog].
    destruct (py_eq_str status "approved");
      [injection Hrun as <- <-; apply Hlog|].
    destruct (py_eq_str status "denied");
      [injection Hrun as <- <-; apply Hlog|].
    destruct (py_in_strs status _);
      [injection Hrun as <- <-; apply Hlog|].
    destruct (py_eq_str status "pending");
      [|injection Hrun as <- <-; apply Hlog].
    assert (Hsleep : Forall (loop_event token request_id)
                       (Sleep POLL_INTERVAL :: p))
      by (constructor; [reflexivity | exact Hev]).
    destruct (sleep_exn w (naps (p ++ h))).
    { injection Hrun as <- <-. exists (Sleep POLL_INTERVAL :: p).
      split; [reflexivity|]. split; [exact Hsleep|].
      unfold polls, readings, naps in *. rewrite !count_cons. cbn. lia. }
    destruct (IH _ _ _ Hrun) as (l & -> & Hl & Hn & Hr).
    exists (l ++ Sleep POLL_INTERVAL :: p).
    split; [rewrite <- app_assoc; reflexivity|].
    split; [apply Forall_app; split; assumption|].
    unfold polls, readings, naps in *. rewrite !count_app, !count_cons.
    cbn. lia.
Qed.

Lemma wait_for_auth_response_events w fuel token request_id h :
  exists l,
    snd (wait_for_auth_response w fuel token request_id h) = l ++ h
    /\ Forall (loop_event token request_id) l
    /\ (naps l <= polls l)%nat /\ (polls l < readings l)%nat.
Proof.
  rewrite wait_for_auth_response_unfold.
  destruct (wait_loop w fuel token request_id (clock w (readings h))
              (Log MsgWaiting :: ClockRead :: h)) as [r h'] eqn:Hrun.
  destruct (wait_loop_events _ _ _ _ _ _ _ _ Hrun) as (l & -> & Hl & Hn & Hr).
  exists (l ++ [Log MsgWaiting; ClockRead]). cbn [snd].
  split; [rewrite <- app_assoc; reflexivity|].
  split; [apply Forall_app; split; [exact Hl | repeat constructor]|].
  unfold polls, readings, naps in *. rewrite !count_app. cbn. lia.
Qed.

(** X8. Inside one call of [wait_for_auth_response] no POST is sent, every
    GET is for the request id and with the token of the call, every sleep
    lasts [POLL_INTERVAL], and there are never more sleeps than polls nor as
    many polls as clock readings. *)
Theorem loop_keeps_to_its_request (w : world) (fuel : nat) (token : string)
  (request_id : pyval) (h : history) :
  exists l,
    snd (wait_for_auth_response w fuel token request_id h) = l ++ h
    /\ Forall (loop_event token request_id) l
    /\ (naps l <= polls l)%nat /\ (polls l < readings l)%nat.
Proof. apply wait_for_auth_response_events. Qed.

(** X9. Whatever poll of a run returns the status "denied", "expired" or
    "timeout", the run returns deny and that poll is its last one. *)
Theorem remote_refusal_is_terminal (w : world) (fuel : nat) (token : string)
  (request_id : pyval) (h h' hk : history) (r : outcome bool) (s : string) :
  wait_for_auth_response w fuel token request_id h = (r, h') ->
  (polls h <= polls hk < polls h')%nat ->
  fst (poll_auth_status w token request_id hk) = Val (true, PStr s) ->
  In s ["denied"; "expired"; "timeout"] ->
  r = Val false /\ polls h' = S (polls hk).
Proof.
  intros Hrun Hk Hpoll Hs.
  rewrite wait_for_auth_response_unfold in Hrun.
  pose proof (wait_loop_polls _ _ _ _ _ _ _ _ Hrun (polls hk) Hk) as Hset.
  rewrite poll_auth_status_value in Hpoll. rewrite Hpoll in Hset.
  simpl in Hs. destruct Hs as [<-|[<-|[<-|[]]]]; exact Hset.
Qed.

Lemma remote_refusal_is_terminal_witness :
  fst (poll_auth_status denying_world "tok" (PStr "req-1")
         [HttpGet "tok" (PStr "req-1")]) = Val (true, PStr "denied")
  /\ fst (wait_for_auth_response denying_world 5 "tok" (PStr "req-1") [])
     = Val false
  /\ polls (snd (wait_for_auth_response denying_world 5 "tok"
                   (PStr "req-1") [])) = 2%nat.
Proof.
  split; [reflexivity|].
  apply (remote_refusal_is_terminal denying_world 5 "tok" (PStr "req-1") []
           (snd (wait_for_auth_response denying_world 5 "tok"
                   (PStr "req-1") []))
           [HttpGet "tok" (PStr "req-1")]
           (fst (wait_for_auth_response denying_world 5 "tok"
                   (PStr "req-1") []))
           "denied").
  - apply surjective_pairing.
  - vm_compute. lia.
  - reflexivity.
  - simpl. auto.
Defined.

(** X10. When more than 30 seconds lie between the start reading and the
    first deadline check, the loop returns deny without sending a single
    poll, whatever the server would have answered. *)
Theorem late_first_check_polls_nothing (w : world) (fuel : nat)
  (token : string) (request_id : pyval) (h : history) :
  (REQUEST_TIMEOUT
   < clock w (readings h + 1) - clock w (readings h))%Q ->
  (1 <= fuel)%nat ->
  wait_for_auth_response w fuel token request_id h
  = (Val false,
     Log MsgDeadline :: ClockRead :: Log MsgWaiting :: ClockRead :: h).
Proof.
  intros Hlate Hfuel. rewrite wait_for_auth_response_unfold.
  destruct fuel as [|fuel]; [lia|].
  apply wait_loop_deadline_pass.
  replace (readings (Log MsgWaiting :: ClockRead :: h))
    with (readings h + 1)%nat; [exact Hlate|].
  unfold readings. rewrite !count_cons. cbn. lia.
Qed.

Lemma late_first_check_polls_nothing_witness :
  answers (get_reply late_world 0) "approved"
  /\ wait_for_auth_response late_world 3 "tok" (PStr "req-1") []
     = (Val false, [Log MsgDeadline; ClockRead; Log MsgWaiting; ClockRead]).
Proof.
  split; [eexists; split; reflexivity|].
  apply (late_first_check_polls_nothing late_world 3 "tok" (PStr "req-1") []).
  - vm_compute. reflexivity.
  - lia.
Defined.

(** X11. The deadline test is strict: a check made exactly 30 seconds
    after the start still polls, and an approval found by that poll is
    honoured. *)
Theorem approval_on_the_deadline_counts (w : world) (fuel : nat)
  (token : string) (request_id : pyval) (h : history) :
  (clock w (readings h + 1) - clock w (readings h) == REQUEST_TIMEOUT)%Q ->
  answers (get_reply w (polls h)) "approved" ->
  (1 <= fuel)%nat ->
  exists h',
    wait_for_auth_response w fuel token request_id h = (Val true, h')
    /\ polls h' = S (polls h).
Proof.
  intros Hbrink Ha Hfuel. rewrite wait_for_auth_response_unfold.
  destruct fuel as [|fuel]; [lia|].
  destruct (wait_loop_approved_pass w fuel token request_id
              (clock w (readings h)) (Log MsgWaiting :: ClockRead :: h))
    as (h' & Hrun & Hp).
  - replace (readings (Log MsgWaiting :: ClockRead :: h))
      with (readings h + 1)%nat
      by (unfold readings; rewrite !count_cons; cbn; lia).
    rewrite Hbrink. apply Qle_refl.
  - exact Ha.
  - exists h'. split; [exact Hrun | exact Hp].
Qed.

Lemma approval_on_the_deadline_counts_witness :
  (clock brink_world 1 - clock brink_world 0 == REQUEST_TIMEOUT)%Q
  /\ exists h',
      wait_for_auth_response brink_world 1 "tok" (PStr "req-1") []
      = (Val true, h')
      /\ polls h' = 1%nat.
Proof.
  assert (Hb : (clock brink_world 1 - clock brink_world 0
                == REQUEST_TIMEOUT)%Q) by reflexivity.
  split; [exact Hb|].
  apply (approval_on_the_deadline_counts brink_world 1 "tok"
           (PStr "req-1") []).
  - exact Hb.
  - eexists; split; reflexivity.
  - lia.
Defined.

(** X12. The loop does not guard its sleep: when the sleep after a pending
    poll is interrupted, by Ctrl-C or by any other exception, the exception
    leaves [wait_for_auth_response] and no further poll is sent. *)
Theorem interrupted_sleep_escapes (w : world) (fuel : nat) (token : string)
  (request_id : pyval) (h : history) (e : exn) :
  (clock w (readings h + 1) - clock w (readings h) <= REQUEST_TIMEOUT)%Q ->
  answers (get_reply w (polls h)) "pending" ->
  sleep_exn w (naps h) = Some e ->
  (1 <= fuel)%nat ->
  exists h',
    wait_for_auth_response w fuel token request_id h = (Raise e, h')
    /\ polls h' = S (polls h).
Proof.
  intros Ht Ha Hs Hfuel. rewrite wait_for_auth_response_unfold.
  destruct fuel as [|fuel]; [lia|].
  rewrite wait_loop_pass.
  replace (readings (Log MsgWaiting :: ClockRead :: h))
    with (readings h + 1)%nat
    by (unfold readings; rewrite !count_cons; cbn; lia).
  rewrite (Qgtb_false _ _ Ht).
  destruct (poll_auth_status_run w token request_id
              (ClockRead :: Log MsgWaiting :: ClockRead :: h))
    as (h2 & -> & Hp & _ & Hn).
  change (polls (ClockRead :: Log MsgWaiting :: ClockRead :: h))
    with (polls h) in *.
  change (naps (ClockRead :: Log MsgWaiting :: ClockRead :: h))
    with (naps h) in *.
  rewrite (answers_polled _ _ Ha). cbn. rewrite Hn, Hs.
  eexists. split; [reflexivity|].
  unfold polls in *. rewrite count_cons. cbn. exact Hp.
Qed.

Lemma interrupted_sleep_escapes_witness :
  sleep_exn interrupted_world 0 = Some KeyboardInterrupt
  /\ (exists h',
         wait_for_auth_response interrupted_world 3 "tok" (PStr "req-1") []
         = (Raise KeyboardInterrupt, h')
         /\ polls h' = 1%nat)
  /\ exit_status interrupted_world 3 = Some 1%Z.
Proof.
  split; [reflexivity|]. split; [|reflexivity].
  apply (interrupted_sleep_escapes interrupted_world 3 "tok" (PStr "req-1")
           [] KeyboardInterrupt).
  - vm_compute. discriminate.
  - eexists; split; reflexivity.
  - reflexivity.
  - lia.
Defined.

(** ** The shape of a whole run *)

Lemma loop_events_no_post token request_id l :
  Forall (loop_event token request_id) l -> posts l = 0%nat.
Proof.
  induction 1 as [|e l He _ IH]; [reflexivity|].
  unfold posts in *. rewrite count_cons.
  destruct e; simpl in *; try assumption. contradiction.
Qed.

Lemma quiet_app l1 l2 : quiet l1 -> quiet l2 -> quiet (l1 ++ l2).
Proof.
  unfold quiet. intros H1 H2. rewrite forallb_app, H1, H2. reflexivity.
Qed.

(** How a run unfolds: it stops before the POST, or after the POST, or it
    goes through the polling loop. *)
Lemma run_cases w fuel :
  (exists l,
      run w fuel = (Some 1%Z, l ++ start_history w) /\ quiet l)
  \/ (exists tok l2 l1,
         fst (read_jwt_token w []) = Val (Some tok)
         /\ run w fuel
            = (Some 1%Z,
               l2 ++ creation_post w tok (command_line w)
                 :: Log (MsgCreating (getenv (environ_USER w) "unknown")
                           (hostname_or_unknown w))
                 :: l1 ++ start_history w)
         /\ quiet l2 /\ quiet l1)
  \/ (exists tok request_id q h2 l2 l1,
         fst (read_jwt_token w []) = Val (Some tok)
         /\ fst (create_auth_request w tok (command_line w) [])
            = Val request_id
         /\ truthy request_id = true
         /\ h2 = l2 ++ creation_post w tok (command_line w)
                   :: Log (MsgCreating (getenv (environ_USER w) "unknown")
                             (hostname_or_unknown w))
                   :: l1 ++ start_history w
         /\ quiet l2 /\ quiet l1 /\ quiet q
         /\ transcript w fuel
            = q ++ snd (wait_for_auth_response w fuel tok request_id h2)
         /\ exit_status w fuel
            = match fst (wait_for_auth_response w fuel tok request_id h2) with
              | Val true => Some 0%Z
              | Val false => Some 1%Z
              | Raise _ => Some 1%Z
              | Diverge => None
              end).
Proof.
  unfold exit_status, transcript, run. rewrite main_stage_token.
  pose proof (read_jwt_token_value w (start_history w)) as Hv.
  pose proof (read_jwt_token_value w []) as Hv0.
  destruct (read_jwt_token_quiet w (start_history w)) as (l1 & Hl1 & Hq1).
  destruct (read_jwt_token w (start_history w)) as [r1 h1].
  cbn [fst snd] in Hv, Hl1. subst h1. rewrite <- Hv in Hv0. clear Hv.
  destruct r1 as [[tok|]|e|].
  - destruct (tok =? "").
    { left. exists (Log MsgNoToken :: l1). split; reflexivity || exact Hq1. }
    pose proof (create_auth_request_value w tok (command_line w)
                  (l1 ++ start_history w)) as Hc.
    pose proof (create_auth_request_value w tok (command_line w) []) as Hc0.
    destruct (create_auth_request_events w tok (command_line w)
                (l1 ++ start_history w)) as (l2 & Hl2 & Hq2).
    destruct (create_auth_request w tok (command_line w)
                (l1 ++ start_history w)) as [r2 h2].
    cbn [fst snd] in Hc, Hl2. subst h2. rewrite <- Hc in Hc0. clear Hc.
    destruct r2 as [rid|e|].
    + destruct (truthy rid) eqn:Ht.
      * right. right.
        remember (l2 ++ creation_post w tok (command_line w)
                    :: Log (MsgCreating (getenv (environ_USER w) "unknown")
                              (hostname_or_unknown w))
                    :: l1 ++ start_history w) as h2 eqn:Hh2.
        destruct (wait_for_auth_response w fuel tok rid h2)
          as [[[|]|e|] h3] eqn:Hw; cbn [fst snd].
        -- exists tok, rid, [Log MsgSuccessful], h2, l2, l1.
           rewrite Hw. repeat split; auto.
        -- exists tok, rid, [Log MsgFailed], h2, l2, l1.
           rewrite Hw. repeat split; auto.
        -- exists tok, rid,
             (if is_KeyboardInterrupt e then [Log MsgCancelled]
              else if is_Exception e then [Log (MsgUnexpected e)] else []),
             h2, l2, l1.
           rewrite Hw. repeat split; auto; destruct e; reflexivity.
        -- exists tok, rid, [], h2, l2, l1.
           rewrite Hw. repeat split; auto.
      * right. left. exists tok, (Log MsgNoRequest :: l2), l1.
        repeat split; auto.
    + right. left.
      exists tok,
        ((if is_KeyboardInterrupt e then [Log MsgCancelled]
          else if is_Exception e then [Log (MsgUnexpected e)] else [])
         ++ l2), l1.
      repeat split; auto.
      * destruct e; reflexivity.
      * apply quiet_app; [destruct e; reflexivity | exact Hq2].
    + exfalso. apply (created_never_diverges (post_reply w)).
      rewrite <- (create_auth_request_value w tok (command_line w) []).
      exact Hc0.
  - left. exists (Log MsgNoToken :: l1). split; reflexivity || exact Hq1.
  - left.
    exists ((if is_KeyboardInterrupt e then [Log MsgCancelled]
             else if is_Exception e then [Log (MsgUnexpected e)] else [])
            ++ l1).
    split.
    + destruct e; reflexivity.
    + apply quiet_app; [destruct e; reflexivity | exact Hq1].
  - exfalso. apply (credential_never_diverges (jwt_file w)).
    rewrite <- (read_jwt_token_value w []). exact Hv0.
Qed.

Lemma quiet_backed w l : quiet l -> Forall (backed_request w) l.
Proof.
  unfold quiet. induction l as [|e l IH]; simpl; intro H; constructor.
  - destruct e; simpl in *; try discriminate. exact I.
  - apply IH. destruct (is_log e); [exact H | discriminate].
Qed.

Lemma loop_events_backed w tok request_id l :
  fst (read_jwt_token w []) = Val (Some tok) ->
  fst (create_auth_request w tok (command_line w) []) = Val request_id ->
  truthy request_id = true ->
  Forall (loop_event tok request_id) l -> Forall (backed_request w) l.
Proof.
  intros Hr Hc Ht. induction 1 as [|e l He _ IH]; constructor; [|exact IH].
  destruct e; simpl in *; auto.
  - contradiction.
  - destruct He as [-> ->]. auto.
Qed.

Lemma before_loop_backed w tok l2 l1 :
  fst (read_jwt_token w []) = Val (Some tok) ->
  quiet l2 -> quiet l1 ->
  Forall (backed_request w)
    (l2 ++ creation_post w tok (command_line w)
       :: Log (MsgCreating (getenv (environ_USER w) "unknown")
                 (hostname_or_unknown w))
       :: l1 ++ start_history w).
Proof.
  intros Hr Hq2 Hq1.
  apply Forall_app. split; [apply quiet_backed, Hq2|].
  constructor; [split; [exact Hr | reflexivity]|].
  constructor; [exact I|].
  apply Forall_app. split; [apply quiet_backed, Hq1|].
  repeat constructor.
Qed.

Lemma before_loop_counts w tok l2 l1 :
  quiet l2 -> quiet l1 ->
  let h2 := l2 ++ creation_post w tok (command_line w)
              :: Log (MsgCreating (getenv (environ_USER w) "unknown")
                        (hostname_or_unknown w))
              :: l1 ++ start_history w in
  posts h2 = 1%nat /\ polls h2 = 0%nat /\ naps h2 = 0%nat
  /\ readings h2 = 0%nat.
Proof.
  intros Hq2 Hq1 h2. unfold h2, posts, polls, naps, readings.
  rewrite !count_app, !count_cons, !count_app.
  pose proof (quiet_posts _ Hq1). pose proof (quiet_posts _ Hq2).
  pose proof (quiet_polls _ Hq1). pose proof (quiet_polls _ Hq2).
  pose proof (quiet_naps _ Hq1). pose proof (quiet_naps _ Hq2).
  pose proof (quiet_readings _ Hq1). pose proof (quiet_readings _ Hq2).
  unfold posts, polls, naps, readings in *. cbn.
  repeat split; lia.
Qed.

Lemma wait_allow_has_polled w fuel token request_id h :
  fst (wait_for_auth_response w fuel token request_id h) = Val true ->
  (1 <= polls (snd (wait_for_auth_response w fuel token request_id h)))%nat.
Proof.
  rewrite wait_for_auth_response_unfold.
  destruct (wait_loop w fuel token request_id (clock w (readings h)) _)
    as [r h'] eqn:Hrun.
  cbn [fst snd]. intros ->.
  destruct (wait_loop_allow _ _ _ _ _ _ _ Hrun) as (h0 & h1 & Hpoll & ->).
  pose proof (poll_auth_status_polls w token request_id h0) as Hp.
  rewrite Hpoll in Hp. cbn [snd] in Hp.
  rewrite polls_cons_quiet, Hp. lia.
Qed.

(** The loop sends no poll at or after a check that finds the deadline
    passed. *)
Lemma wait_loop_polls_bounded w token request_id start_time fuel :
  forall h n r h',
    wait_loop w fuel token request_id start_time h = (r, h') ->
    (REQUEST_TIMEOUT < clock w (readings h + n) - start_time)%Q ->
    (polls h' <= polls h + n)%nat.
Proof.
  induction fuel as [|fuel IH]; intros h n r h' Hrun Hlate.
  - injection Hrun as <- <-. lia.
  - rewrite wait_loop_pass in Hrun.
    destruct (Qgtb _ _) eqn:Hcheck.
    { injection Hrun as <- <-. rewrite !polls_cons_quiet.
      change (polls (ClockRead :: h)) with (polls h). lia. }
    destruct n as [|n].
    { rewrite Nat.add_0_r in Hlate. apply Qgtb_true in Hlate. congruence. }
    destruct (poll_auth_status_run w token request_id (ClockRead :: h))
      as (h2 & Hpoll & Hp & Hr & _).
    rewrite Hpoll in Hrun.
    change (polls (ClockRead :: h)) with (polls h) in *.
    change (readings (ClockRead :: h)) with (S (readings h)) in *.
    destruct (polled _) as [[success status]|e|];
      [|injection Hrun as <- <-; lia ..].
    destruct success; cbn [negb] in Hrun;
      [|injection Hrun as <- <-; rewrite polls_cons_quiet; lia].
    destruct (py_eq_str status "approved");
      [injection Hrun as <- <-; rewrite polls_cons_quiet; lia|].
    destruct (py_eq_str status "denied");
      [injection Hrun as <- <-; rewrite polls_cons_quiet; lia|].
    destruct (py_in_strs status _);
      [injection Hrun as <- <-; rewrite polls_cons_quiet; lia|].
    destruct (py_eq_str status "pending");
      [|injection Hrun as <- <-; rewrite polls_cons_quiet; lia].
    destruct (sleep_exn w (naps h2)).
    { injection Hrun as <- <-.
      change (polls (Sleep POLL_INTERVAL :: h2)) with (polls h2). lia. }
    specialize (IH _ n _ _ Hrun).
    change (polls (Sleep POLL_INTERVAL :: h2)) with (polls h2) in IH.
    change (readings (Sleep POLL_INTERVAL :: h2)) with (readings h2) in IH.
    rewrite Hr, Hp in IH.
    replace (S (readings h) + n)%nat with (readings h + S n)%nat in IH by lia.
    specialize (IH Hlate). lia.
Qed.

(** ** Claims a run keeps whatever the world does *)

(** X13. A run sends at most one POST; it polls only after having sent it,
    and everything it sends after the first poll is polls; it never sleeps
    more often than it polls. *)
Theorem run_network_discipline (w : world) (fuel : nat) :
  (posts (transcript w fuel) <= 1)%nat
  /\ ((1 <= polls (transcript w fuel))%nat ->
      posts (transcript w fuel) = 1%nat)
  /\ (naps (transcript w fuel) <= polls (transcript w fuel))%nat
  /\ exists after before,
      transcript w fuel = after ++ before
      /\ posts after = 0%nat /\ polls before = 0%nat.
Proof.
  destruct (run_cases w fuel)
    as [(l & Hrun & Hq)
       |[(tok & l2 & l1 & _ & Hrun & Hq2 & Hq1)
        |(tok & rid & q & h2 & l2 & l1 & _ & _ & _ & Hh2 & Hq2 & Hq1 & Hq
          & Htr & _)]].
  - unfold transcript. rewrite Hrun. cbn [snd].
    assert (Hposts : posts (l ++ start_history w) = 0%nat)
      by (unfold posts; rewrite count_app; fold (posts l);
          rewrite (quiet_posts l Hq); reflexivity).
    assert (Hpolls : polls (l ++ start_history w) = 0%nat)
      by (unfold polls; rewrite count_app; fold (polls l);
          rewrite (quiet_polls l Hq); reflexivity).
    assert (Hnaps : naps (l ++ start_history w) = 0%nat)
      by (unfold naps; rewrite count_app; fold (naps l);
          rewrite (quiet_naps l Hq); reflexivity).
    rewrite Hposts, Hpolls, Hnaps.
    repeat split; try lia.
    exists [], (l ++ start_history w). auto.
  - unfold transcript. rewrite Hrun. cbn [snd].
    destruct (before_loop_counts w tok l2 l1 Hq2 Hq1)
      as (Hposts & Hpolls & Hnaps & _).
    cbv zeta in Hposts, Hpolls, Hnaps. rewrite Hposts, Hpolls, Hnaps.
    repeat split; try lia.
    eexists [], _. split; [reflexivity|]. auto.
  - destruct (before_loop_counts w tok l2 l1 Hq2 Hq1)
      as (Hposts & Hpolls & Hnaps & _).
    cbv zeta in Hposts, Hpolls, Hnaps. rewrite <- Hh2 in *.
    destruct (wait_for_auth_response_events w fuel tok rid h2)
      as (l3 & Hl3 & Hev & Hn3 & _).
    rewrite Htr, Hl3.
    pose proof (loop_events_no_post _ _ _ Hev) as Hp3.
    pose proof (quiet_posts _ Hq). pose proof (quiet_polls _ Hq).
    pose proof (quiet_naps _ Hq).
    assert (Hcount : posts (q ++ l3 ++ h2) = 1%nat
                     /\ polls (q ++ l3 ++ h2) = polls l3
                     /\ naps (q ++ l3 ++ h2) = naps l3).
    { unfold posts, polls, naps in *. rewrite !count_app. lia. }
    destruct Hcount as (-> & -> & ->).
    repeat split; try lia.
    exists (q ++ l3), h2. split; [rewrite app_assoc; reflexivity|].
    split; [|exact Hpolls].
    unfold posts in *. rewrite count_app. lia.
Qed.

(** X14. A run never exits with status 0 without having talked to the
    server: it has then sent its POST and at least one poll. *)
Theorem allow_needs_the_server (w : world) (fuel : nat) :
  exit_status w fuel = Some 0%Z ->
  posts (transcript w fuel) = 1%nat /\ (1 <= polls (transcript w fuel))%nat.
Proof.
  intro Hexit.
  destruct (run_cases w fuel)
    as [(l & Hrun & _)
       |[(tok & l2 & l1 & _ & Hrun & _)
        |(tok & rid & q & h2 & l2 & l1 & _ & _ & _ & Hh2 & Hq2 & Hq1 & Hq
          & Htr & Hex)]].
  - unfold exit_status in Hexit. rewrite Hrun in Hexit. discriminate.
  - unfold exit_status in Hexit. rewrite Hrun in Hexit. discriminate.
  - rewrite Hexit in Hex.
    assert (Hallow : fst (wait_for_auth_response w fuel tok rid h2)
                     = Val true).
    { destruct (fst (wait_for_auth_response w fuel tok rid h2))
        as [[|]|e|]; try discriminate. reflexivity. }
    pose proof (wait_allow_has_polled w fuel tok rid h2 Hallow) as Hpolled.
    destruct (before_loop_counts w tok l2 l1 Hq2 Hq1) as (Hposts & _).
    cbv zeta in Hposts. rewrite <- Hh2 in Hposts.
    destruct (wait_for_auth_response_events w fuel tok rid h2)
      as (l3 & Hl3 & Hev & _).
    rewrite Htr. rewrite Hl3 in *.
    pose proof (loop_events_no_post _ _ _ Hev) as Hp3.
    pose proof (quiet_posts _ Hq). pose proof (quiet_polls _ Hq).
    unfold posts, polls in *. rewrite !count_app in *. lia.
Qed.

Lemma allow_needs_the_server_witness :
  exit_status approving_world 3 = Some 0%Z
  /\ posts (transcript approving_world 3) = 1%nat
  /\ (1 <= polls (transcript approving_world 3))%nat.
Proof.
  split; [reflexivity|].
  apply (allow_needs_the_server approving_world 3). reflexivity.
Defined.

(** X15. Every request of a run is backed: a POST carries the token the
    loader returns for this world, the user and host names with their
    fallbacks and the command line; a GET carries that token and the truthy
    request id the creation call returns for this world. *)
Theorem requests_are_backed (w : world) (fuel : nat) :
  Forall (backed_request w) (transcript w fuel).
Proof.
  destruct (run_cases w fuel)
    as [(l & Hrun & Hq)
       |[(tok & l2 & l1 & Hr & Hrun & Hq2 & Hq1)
        |(tok & rid & q & h2 & l2 & l1 & Hr & Hc & Ht & Hh2 & Hq2 & Hq1 & Hq
          & Htr & _)]].
  - unfold transcript. rewrite Hrun. cbn [snd].
    apply Forall_app. split; [apply quiet_backed, Hq | repeat constructor].
  - unfold transcript. rewrite Hrun. cbn [snd].
    apply before_loop_backed; assumption.
  - destruct (wait_for_auth_response_events w fuel tok rid h2)
      as (l3 & Hl3 & Hev & _).
    rewrite Htr, Hl3.
    apply Forall_app. split; [apply quiet_backed, Hq|].
    apply Forall_app. split.
    + apply (loop_events_backed w tok rid); assumption.
    + rewrite Hh2. apply before_loop_backed; assumption.
Qed.

(** X16. Whatever the server answers, a run on a clock that moves on by at
    least [POLL_INTERVAL] from one deadline check to the next ends within 17
    passes of the loop and sends at most 16 polls. *)
Theorem run_is_bounded (w : world) (fuel : nat) :
  (clock w 0 <= clock w 1)%Q ->
  (forall j, (1 <= j)%nat ->
     (clock w j + POLL_INTERVAL <= clock w (S j))%Q) ->
  (17 <= fuel)%nat ->
  exit_status w fuel <> None /\ (polls (transcript w fuel) <= 16)%nat.
Proof.
  intros Hfirst Hslept Hfuel.
  pose proof (seventeenth_check_is_late w 0 Hfirst Hslept) as Hlate.
  cbn [Nat.add] in Hlate.
  split.
  { apply exit_status_returns. exists 16%nat. split; [lia | exact Hlate]. }
  destruct (run_cases w fuel)
    as [(l & Hrun & Hq)
       |[(tok & l2 & l1 & _ & Hrun & Hq2 & Hq1)
        |(tok & rid & q & h2 & l2 & l1 & _ & _ & _ & Hh2 & Hq2 & Hq1 & Hq
          & Htr & _)]].
  - unfold transcript. rewrite Hrun. cbn [snd].
    unfold polls. rewrite count_app. fold (polls l).
    rewrite (quiet_polls l Hq). cbn. lia.
  - unfold transcript. rewrite Hrun. cbn [snd].
    destruct (before_loop_counts w tok l2 l1 Hq2 Hq1) as (_ & Hpolls & _).
    cbv zeta in Hpolls. rewrite Hpolls. lia.
  - destruct (before_loop_counts w tok l2 l1 Hq2 Hq1)
      as (_ & Hpolls & _ & Hreads).
    cbv zeta in Hpolls, Hreads. rewrite <- Hh2 in *.
    rewrite Htr. unfold polls at 1. rewrite count_app. fold (polls q).
    rewrite (quiet_polls q Hq).
    rewrite wait_for_auth_response_unfold, Hreads.
    destruct (wait_loop w fuel tok rid (clock w 0)
                (Log MsgWaiting :: ClockRead :: h2)) as [r h3] eqn:Hloop.
    pose proof (wait_loop_polls_bounded _ _ _ _ _ _ 16%nat _ _ Hloop) as Hb.
    change (polls (Log MsgWaiting :: ClockRead :: h2)) with (polls h2) in Hb.
    change (readings (Log MsgWaiting :: ClockRead :: h2))
      with (S (readings h2)) in Hb.
    rewrite Hreads, Hpolls in Hb. cbn [fst snd Nat.add] in *.
    specialize (Hb Hlate). fold (polls h3). lia.
Qed.

Lemma run_is_bounded_witness :
  (clock pending_world 0 <= clock pending_world 1)%Q
  /\ exit_status pending_world 17 <> None
  /\ (polls (transcript pending_world 17) <= 16)%nat.
Proof.
  assert (Hfirst : (clock pending_world 0 <= clock pending_world 1)%Q)
    by (vm_compute; discriminate).
  split; [exact Hfirst|].
  apply (run_is_bounded pending_world 17 Hfirst).
  - intros j Hj. destruct j as [|j]; [lia|].
    cbn [pending_world with_get_reply approving_world clock Nat.pred].
    unfold Qle, Qplus, inject_Z, POLL_INTERVAL. cbn [Qnum Qden]. lia.
  - lia.
Defined.

(** X17. The last line a finished run logs tells its exit status: it is
    "Authentication SUCCESSFUL" exactly when the status is 0. *)
Theorem last_log_line_tells_exit (w : world) (fuel : nat) (code : Z) :
  exit_status w fuel = Some code ->
  (code = 0%Z <->
   hd_error (transcript w fuel) = Some (Log MsgSuccessful)).
Proof.
  unfold exit_status, transcript, run. rewrite main_stage_token.
  assert (Hclose : forall (c : Z) (m : message),
             c = 0%Z \/ m <> MsgSuccessful ->
             c <> 0%Z \/ m = MsgSuccessful ->
             Some c = Some code ->
             (code = 0%Z <-> Some (Log m) = Some (Log MsgSuccessful))).
  { intros c m H0 H1 H. injection H as <-.
    split; intro E; [destruct H1; congruence | destruct H0; congruence]. }
  destruct (read_jwt_token w (start_history w)) as [[[tok|]|e|] h1];
    [ | apply Hclose; [right | left]; discriminate
      | destruct e; (apply Hclose; [right | left]; discriminate)
      | discriminate ].
  destruct (tok =? ""); [apply Hclose; [right | left]; discriminate|].
  destruct (create_auth_request w tok (command_line w) h1)
    as [[rid|e|] h2];
    [ | destruct e; (apply Hclose; [right | left]; discriminate)
      | discriminate ].
  destruct (truthy rid); [|apply Hclose; [right | left]; discriminate].
  destruct (wait_for_auth_response w fuel tok rid h2) as [[[|]|e|] h3];
    [ apply Hclose; [left | right]; reflexivity
    | apply Hclose; [right | left]; discriminate
    | destruct e; (apply Hclose; [right | left]; discriminate)
    | discriminate ].
Qed.

Lemma last_log_line_tells_exit_witness :
  exit_status tokenless_world 3 = Some 1%Z
  /\ hd_error (transcript tokenless_world 3) = Some (Log MsgNoToken)
  /\ (1%Z = 0%Z <->
      hd_error (transcript tokenless_world 3) = Some (Log MsgSuccessful)).
Proof.
  split; [reflexivity|]. split; [reflexivity|].
  apply (last_log_line_tells_exit tokenless_world 3 1). reflexivity.
Defined.

(** * The deadline and the exit status, read off the world *)

(** ** Time passes while the loop sleeps *)

Lemma sleeps_honoured_app w l h :
  sleeps_honoured w (l ++ h) = true -> sleeps_honoured w h = true.
Proof.
  induction l as [|e l IH]; [auto|].
  destruct e; cbn [app sleeps_honoured]; try exact IH.
  intro H. apply andb_true_iff in H. apply IH, H.
Qed.

Lemma sleeps_honoured_reading w h k :
  sleeps_honoured w (ClockRead :: h) = true ->
  readings h = S k ->
  (clock w k + slept_since_reading h <= clock w (S k))%Q.
Proof.
  cbn [sleeps_honoured]. intros H Hk. rewrite Hk in H.
  apply andb_true_iff in H. apply Qle_bool_iff, H.
Qed.

Lemma slept_since_reading_quiet l h :
  quiet l -> slept_since_reading (l ++ h) = slept_since_reading h.
Proof.
  unfold quiet. induction l as [|e l IH]; [reflexivity|].
  destruct e; cbn; try discriminate. exact IH.
Qed.

(** Every pass of the loop begins by reading the clock. *)
Lemma wait_loop_pass_prefix w token request_id start_time fuel h r h' :
  wait_loop w (S fuel) token request_id start_time h = (r, h') ->
  exists l, h' = l ++ ClockRead :: h.
Proof.
  intro Hrun. rewrite wait_loop_pass in Hrun.
  destruct (Qgtb _ _).
  { injection Hrun as <- <-. exists [Log MsgDeadline]. reflexivity. }
  destruct (poll_auth_status_events w token request_id (ClockRead :: h))
    as (lq & Hlq & _).
  destruct (poll_auth_status w token request_id (ClockRead :: h)) as [o h2].
  cbn [snd] in Hlq. subst h2.
  assert (Hshape : forall p,
             exists l, p ++ lq ++ HttpGet token request_id :: ClockRead :: h
                       = l ++ ClockRead :: h).
  { intro p. exists (p ++ lq ++ [HttpGet token request_id]).
    rewrite <- !app_assoc. reflexivity. }
  destruct o as [[success status]|e|];
    [|injection Hrun as <- <-; apply (Hshape []) ..].
  destruct success; cbn [negb] in Hrun;
    [|injection Hrun as <- <-; apply (Hshape [Log _])].
  destruct (py_eq_str status "approved");
    [injection Hrun as <- <-; apply (Hshape [Log _])|].
  destruct (py_eq_str status "denied");
    [injection Hrun as <- <-; apply (Hshape [Log _])|].
  destruct (py_in_strs status _);
    [injection Hrun as <- <-; apply (Hshape [Log _])|].
  destruct (py_eq_str status "pending");
    [|injection Hrun as <- <-; apply (Hshape [Log _])].
  destruct (sleep_exn w _).
  { injection Hrun as <- <-. apply (Hshape [Sleep _]). }
  destruct (wait_loop_events _ _ _ _ _ _ _ _ Hrun) as (l & -> & _).
  destruct (Hshape (l ++ [Sleep POLL_INTERVAL])) as (l' & Hl').
  exists l'. rewrite <- Hl', <- !app_assoc. reflexivity.
Qed.

Lemma inject_nat_succ m :
  (inject_Z (Z.of_nat (S m)) == inject_Z (Z.of_nat m) + 1)%Q.
Proof.
  rewrite Nat2Z.inj_succ. unfold Z.succ. rewrite inject_Z_plus. reflexivity.
Qed.

(** While the server answers "pending" and the clock honours the sleeps of
    the run, each pass brings the deadline [POLL_INTERVAL] closer: with [m]
    sleeps left before the deadline must have passed, the loop returns deny
    after at most [m] more polls. *)
Lemma paced_loop w token request_id start_time :
  (forall k, answers (get_reply w k) "pending") ->
  (forall k, sleep_exn w k = None) ->
  forall fuel h k m r h',
    wait_loop w fuel token request_id start_time h = (r, h') ->
    sleeps_honoured w h' = true ->
    readings h = S k ->
    (start_time + REQUEST_TIMEOUT
     < clock w k + slept_since_reading h
       + POLL_INTERVAL * inject_Z (Z.of_nat m))%Q ->
    (m < fuel)%nat ->
    r = Val false /\ (polls h' <= polls h + m)%nat.
Proof.
  intros Hpend Hsleep.
  induction fuel as [|fuel IH]; intros h k m r h' Hrun Hhon Hk Hbound Hm;
    [lia|].
  destruct (wait_loop_pass_prefix _ _ _ _ _ _ _ _ Hrun) as (l & Hl).
  assert (Hnow : (clock w k + slept_since_reading h <= clock w (S k))%Q).
  { apply (sleeps_honoured_reading w h k); [|exact Hk].
    apply (sleeps_honoured_app w l). rewrite <- Hl. exact Hhon. }
  rewrite wait_loop_pass, Hk in Hrun.
  destruct (Qgtb (clock w (S k) - start_time) REQUEST_TIMEOUT) eqn:Hcheck.
  { injection Hrun as <- <-. split; [reflexivity|].
    rewrite polls_cons_quiet. change (polls (ClockRead :: h)) with (polls h).
    lia. }
  assert (Hwithin : (clock w (S k) - start_time <= REQUEST_TIMEOUT)%Q).
  { apply Qnot_lt_le. intro Hlt. apply Qgtb_true in Hlt. congruence. }
  destruct m as [|m].
  { exfalso. unfold REQUEST_TIMEOUT, POLL_INTERVAL in *.
    change (inject_Z (Z.of_nat 0)) with 0%Q in Hbound. lra. }
  pose proof (poll_auth_status_value w token request_id (ClockRead :: h))
    as Hv.
  destruct (poll_auth_status_events w token request_id (ClockRead :: h))
    as (lq & Hlq & Hq).
  destruct (poll_auth_status w token request_id (ClockRead :: h)) as [o h2].
  cbn [fst snd] in Hv, Hlq. subst h2.
  rewrite (answers_polled _ _ (Hpend _)) in Hv. subst o.
  cbn in Hrun. rewrite Hsleep in Hrun.
  assert (Hcount : polls (lq ++ HttpGet token request_id :: ClockRead :: h)
                   = S (polls h)
                   /\ readings (lq ++ HttpGet token request_id
                                  :: ClockRead :: h) = S (S k)).
  { unfold polls, readings in *. rewrite !count_app, !count_cons.
    pose proof (quiet_polls _ Hq). pose proof (quiet_readings _ Hq).
    unfold polls, readings in *. cbn. lia. }
  destruct Hcount as [Hp Hr].
  destruct (IH _ (S k) m _ _ Hrun Hhon) as [-> Hpolls].
  - change (readings (Sleep POLL_INTERVAL :: ?x)) with (readings x).
    exact Hr.
  - cbn [slept_since_reading].
    rewrite (slept_since_reading_quiet lq _ Hq). cbn [slept_since_reading].
    pose proof (inject_nat_succ m) as Hsucc.
    unfold REQUEST_TIMEOUT, POLL_INTERVAL in *. lra.
  - lia.
  - split; [reflexivity|].
    change (polls (Sleep POLL_INTERVAL :: ?x)) with (polls x) in Hpolls.
    rewrite Hp in Hpolls. lia.
Qed.

(** C3, as the code has it. When every poll answers pending and no sleep
    is interrupted, the run returns deny at the first deadline check that
    finds more than 30 seconds elapsed, having sent one poll for each
    earlier check, and it does not return before such a check.  The number
    of polls is therefore fixed by the clock, not by the constants alone:
    it is at least 14 exactly when the first 14 checks fall within the
    deadline, and it is at most 16 as soon as the clock honours the
    2-second sleeps the loop makes. *)
Theorem pending_forever_times_out (w : world) (token : string)
  (request_id : pyval) (h : history) :
  (forall k, answers (get_reply w k) "pending") ->
  (forall k, sleep_exn w k = None) ->
  (forall n,
      (forall j, (j < n)%nat -> (elapsed_at w h j <= REQUEST_TIMEOUT)%Q) ->
      (REQUEST_TIMEOUT < elapsed_at w h n)%Q ->
      (exists h',
          (forall fuel, (n < fuel)%nat ->
             wait_for_auth_response w fuel token request_id h
             = (Val false, h'))
          /\ polls h' = (polls h + n)%nat)
      /\ ((14 <= n)%nat <->
          forall j, (j < 14)%nat ->
            (elapsed_at w h j <= REQUEST_TIMEOUT)%Q))
  /\ (forall fuel,
         (forall j, (j < fuel)%nat ->
            (elapsed_at w h j <= REQUEST_TIMEOUT)%Q) ->
         fst (wait_for_auth_response w fuel token request_id h) = Diverge)
  /\ (forall fuel,
         (17 <= fuel)%nat ->
         sleeps_honoured w
           (snd (wait_for_auth_response w fuel token request_id h)) = true ->
         fst (wait_for_auth_response w fuel token request_id h) = Val false
         /\ (polls (snd (wait_for_auth_response w fuel token request_id h))
             <= polls h + 16)%nat).
Proof.
  intros Hpend Hsleep.
  set (h0 := Log MsgWaiting :: ClockRead :: h).
  assert (Hr0 : readings h0 = S (readings h)) by reflexivity.
  assert (Hpasses : forall n,
             (forall j, (j < n)%nat ->
                (elapsed_at w h j <= REQUEST_TIMEOUT)%Q) ->
             exists hn,
               (forall fuel,
                   wait_loop w (n + fuel) token request_id
                     (clock w (readings h)) h0
                   = wait_loop w fuel token request_id
                       (clock w (readings h)) hn)
               /\ polls hn = (polls h + n)%nat
               /\ readings hn = (readings h + S n)%nat).
  { intros n Hwithin.
    destruct (wait_loop_pending_passes w token request_id
                (clock w (readings h)) n h0)
      as (hn & Hrun & Hp & Hr & _).
    - intros j _. apply Hpend.
    - intros j _. apply Hsleep.
    - intros j Hj. rewrite Hr0.
      replace (S (readings h) + j)%nat with (readings h + S j)%nat by lia.
      apply (Hwithin j Hj).
    - exists hn. split; [exact Hrun|]. split; [exact Hp|].
      rewrite Hr, Hr0. lia. }
  split; [|split].
  - intros n Hwithin Hlate. split.
    + destruct (Hpasses n Hwithin) as (hn & Hrun & Hp & Hr).
      exists (Log MsgDeadline :: ClockRead :: hn). split; [|exact Hp].
      intros fuel Hfuel. rewrite wait_for_auth_response_unfold. fold h0.
      replace fuel with (n + S (fuel - S n))%nat by lia.
      rewrite Hrun. apply wait_loop_deadline_pass.
      rewrite Hr. exact Hlate.
    + split.
      * intros Hn j Hj. apply Hwithin. lia.
      * intro H14. destruct (le_lt_dec 14 n) as [|Hlt]; [assumption|].
        exfalso. apply (Qlt_not_le _ _ Hlate), H14, Hlt.
  - intros fuel Hwithin.
    destruct (Hpasses fuel Hwithin) as (hn & Hrun & _).
    rewrite wait_for_auth_response_unfold. fold h0.
    replace fuel with (fuel + 0)%nat at 1 by lia.
    rewrite Hrun. reflexivity.
  - intros fuel Hfuel Hhon.
    rewrite wait_for_auth_response_unfold in *. fold h0 in Hhon |- *.
    destruct (wait_loop w fuel token request_id (clock w (readings h)) h0)
      as [r h'] eqn:Hrun.
    cbn [fst snd] in *.
    destruct (paced_loop w token request_id (clock w (readings h))
                Hpend Hsleep fuel h0 (readings h) 16 r h' Hrun Hhon Hr0)
      as [-> Hpolls].
    + cbn [h0 slept_since_reading].
      change (inject_Z (Z.of_nat 16)) with 16%Q.
      unfold REQUEST_TIMEOUT, POLL_INTERVAL. lra.
    + lia.
    + split; [reflexivity | exact Hpolls].
Qed.

Lemma pending_forever_times_out_witness :
  (forall k, answers (get_reply pending_world k) "pending")
  /\ (forall k, sleep_exn pending_world k = None)
  /\ sleeps_honoured pending_world
       (snd (wait_for_auth_response pending_world 17 "tok"
               (PStr "req-1") [])) = true
  /\ fst (wait_for_auth_response pending_world 17 "tok" (PStr "req-1") [])
     = Val false
  /\ (polls (snd (wait_for_auth_response pending_world 17 "tok"
                    (PStr "req-1") [])) <= 16)%nat.
Proof.
  assert (Hpend : forall k, answers (get_reply pending_world k) "pending")
    by (intro k; eexists; split; reflexivity).
  assert (Hsleep : forall k, sleep_exn pending_world k = None)
    by reflexivity.
  assert (Hhon : sleeps_honoured pending_world
                   (snd (wait_for_auth_response pending_world 17 "tok"
                           (PStr "req-1") [])) = true)
    by (vm_compute; reflexivity).
  split; [exact Hpend|]. split; [exact Hsleep|]. split; [exact Hhon|].
  destruct (pending_forever_times_out pending_world "tok" (PStr "req-1") []
              Hpend Hsleep) as (_ & _ & Hbound).
  apply (Hbound 17%nat); [lia | exact Hhon].
Defined.

(** ** What ends the loop, and with what *)

(** A deadline check of the loop that finds the deadline passed ends it
    with deny. *)
Lemma wait_loop_late_check w token request_id start_time fuel :
  forall h r h',
    wait_loop w fuel token request_id start_time h = (r, h') ->
    forall j, (readings h <= j < readings h')%nat ->
      (REQUEST_TIMEOUT < clock w j - start_time)%Q ->
      r = Val false.
Proof.
  induction fuel as [|fuel IH]; intros h r h' Hrun j Hj Hlate.
  - injection Hrun as <- <-. lia.
  - rewrite wait_loop_pass in Hrun.
    destruct (Qgtb _ _) eqn:Hcheck.
    { injection Hrun as <- <-. reflexivity. }
    destruct (poll_auth_status_run w token request_id (ClockRead :: h))
      as (h2 & Hpoll & _ & Hr & _).
    rewrite Hpoll in Hrun.
    change (readings (ClockRead :: h)) with (S (readings h)) in Hr.
    assert (Hfirst : j <> readings h).
    { intros ->. apply Qgtb_true in Hlate. congruence. }
    assert (Hend : forall m, (j < readings (Log m :: h2))%nat -> False).
    { intro m. change (readings (Log m :: h2)) with (readings h2). lia. }
    destruct (polled _) as [[success status]|e|];
      [|injection Hrun as <- <-; lia ..].
    destruct success; cbn [negb] in Hrun;
      [|injection Hrun as <- <-; reflexivity].
    destruct (py_eq_str status "approved");
      [injection Hrun as <- <-; exfalso; apply (Hend MsgApproved), Hj|].
    destruct (py_eq_str status "denied");
      [injection Hrun as <- <-; reflexivity|].
    destruct (py_in_strs status _);
      [injection Hrun as <- <-; reflexivity|].
    destruct (py_eq_str status "pending");
      [|injection Hrun as <- <-; reflexivity].
    destruct (sleep_exn w (naps h2)).
    { injection Hrun as <- <-.
      change (readings (Sleep POLL_INTERVAL :: h2)) with (readings h2) in Hj.
      lia. }
    apply (IH _ _ _ Hrun j); [|exact Hlate].
    change (readings (Sleep POLL_INTERVAL :: h2)) with (readings h2). lia.
Qed.

(** A sleep of the loop that raises ends it with that exception. *)
Lemma wait_loop_sleep_raises w token request_id start_time fuel :
  forall h r h',
    wait_loop w fuel token request_id start_time h = (r, h') ->
    forall k e, (naps h <= k < naps h')%nat ->
      sleep_exn w k = Some e ->
      r = Raise e.
Proof.
  induction fuel as [|fuel IH]; intros h r h' Hrun k e Hk He.
  - injection Hrun as <- <-. lia.
  - rewrite wait_loop_pass in Hrun.
    destruct (Qgtb _ _).
    { injection Hrun as <- <-.
      change (naps (Log MsgDeadline :: ClockRead :: h)) with (naps h) in Hk.
      lia. }
    destruct (poll_auth_status_run w token request_id (ClockRead :: h))
      as (h2 & Hpoll & _ & _ & Hn).
    rewrite Hpoll in Hrun.
    change (naps (ClockRead :: h)) with (naps h) in Hn.
    assert (Hend : forall m, (naps h <= k < naps (Log m :: h2))%nat -> False).
    { intro m. change (naps (Log m :: h2)) with (naps h2). lia. }
    destruct (polled _) as [[success status]|e'|];
      [|injection Hrun as <- <-; lia ..].
    destruct success; cbn [negb] in Hrun;
      [|injection Hrun as <- <-; exfalso; apply (Hend _ Hk)].
    destruct (py_eq_str status "approved");
      [injection Hrun as <- <-; exfalso; apply (Hend _ Hk)|].
    destruct (py_eq_str status "denied");
      [injection Hrun as <- <-; exfalso; apply (Hend _ Hk)|].
    destruct (py_in_strs status _);
      [injection Hrun as <- <-; exfalso; apply (Hend _ Hk)|].
    destruct (py_eq_str status "pending");
      [|injection Hrun as <- <-; exfalso; apply (Hend _ Hk)].
    destruct (sleep_exn w (naps h2)) as [e'|] eqn:Hs.
    { injection Hrun as <- <-.
      assert (k = naps h2) as ->.
      { unfold naps in *. rewrite count_cons in Hk. cbn in Hk. lia. }
      congruence. }
    destruct (Nat.eq_dec k (naps h2)) as [->|Hne]; [congruence|].
    apply (IH _ _ _ Hrun k e); [|exact He].
    unfold naps in *. rewrite count_cons. cbn. lia.
Qed.

Lemma verdict_of_refusal status :
  status <> PStr "approved" -> status <> PStr "pending" ->
  verdict status = Some false.
Proof.
  intros Ha Hp. unfold verdict.
  destruct (py_eq_str status "approved") eqn:Ea;
    [apply py_eq_str_true in Ea; contradiction|].
  destruct (py_eq_str status "denied"); [reflexivity|].
  destruct (py_in_strs status _); [reflexivity|].
  destruct (py_eq_str status "pending") eqn:Ep;
    [apply py_eq_str_true in Ep; contradiction | reflexivity].
Qed.

(** A run either ends with status 1 before the loop, having polled, read
    the clock and slept not once, or it is the loop that decides. *)
Lemma run_loop w fuel :
  (exit_status w fuel = Some 1%Z
   /\ polls (transcript w fuel) = 0%nat
   /\ readings (transcript w fuel) = 0%nat
   /\ naps (transcript w fuel) = 0%nat)
  \/ (exists tok request_id h2 r h3,
         wait_loop w fuel tok request_id (clock w 0)
           (Log MsgWaiting :: ClockRead :: h2) = (r, h3)
         /\ polls h2 = 0%nat /\ readings h2 = 0%nat /\ naps h2 = 0%nat
         /\ polls (transcript w fuel) = polls h3
         /\ readings (transcript w fuel) = readings h3
         /\ naps (transcript w fuel) = naps h3
         /\ exit_status w fuel
            = match r with
              | Val true => Some 0%Z
              | Val false => Some 1%Z
              | Raise _ => Some 1%Z
              | Diverge => None
              end).
Proof.
  destruct (run_cases w fuel)
    as [(l & Hrun & Hq)
       |[(tok & l2 & l1 & _ & Hrun & Hq2 & Hq1)
        |(tok & rid & q & h2 & l2 & l1 & _ & _ & _ & Hh2 & Hq2 & Hq1 & Hq
          & Htr & Hex)]].
  - left. unfold exit_status, transcript. rewrite Hrun. cbn [fst snd].
    pose proof (quiet_polls _ Hq). pose proof (quiet_readings _ Hq).
    pose proof (quiet_naps _ Hq).
    unfold polls, readings, naps in *. rewrite !count_app. cbn.
    repeat split; lia.
  - left. unfold exit_status, transcript. rewrite Hrun. cbn [fst snd].
    destruct (before_loop_counts w tok l2 l1 Hq2 Hq1)
      as (_ & Hpolls & Hnaps & Hreads).
    cbv zeta in Hpolls, Hnaps, Hreads. auto.
  - right.
    destruct (before_loop_counts w tok l2 l1 Hq2 Hq1)
      as (_ & Hpolls & Hnaps & Hreads).
    cbv zeta in Hpolls, Hnaps, Hreads. rewrite <- Hh2 in *.
    rewrite wait_for_auth_response_unfold, Hreads in Htr, Hex.
    destruct (wait_loop w fuel tok rid (clock w 0)
                (Log MsgWaiting :: ClockRead :: h2)) as [r h3] eqn:Hloop.
    cbn [fst snd] in Htr, Hex.
    exists tok, rid, h2, r, h3.
    pose proof (quiet_polls _ Hq). pose proof (quiet_readings _ Hq).
    pose proof (quiet_naps _ Hq).
    rewrite Htr. unfold polls, readings, naps in *. rewrite !count_app.
    repeat split; try assumption; try lia.
Qed.

(** What a poll made during the run settles about its exit status. *)
Lemma run_poll_settles w fuel token request_id hk :
  (polls hk < polls (transcript w fuel))%nat ->
  match fst (poll_auth_status w token request_id hk) with
  | Val (true, status) =>
      match verdict status with
      | Some true => exit_status w fuel = Some 0%Z
      | Some false => exit_status w fuel = Some 1%Z
      | None => True
      end
  | Val (false, _) => exit_status w fuel = Some 1%Z
  | Raise _ => exit_status w fuel = Some 1%Z
  | Diverge => False
  end.
Proof.
  intro Hk. rewrite poll_auth_status_value.
  destruct (run_loop w fuel)
    as [(_ & Hp & _)
       |(tok & rid & h2 & r & h3 & Hloop & Hp2 & _ & _ & Hp & _ & _ & Hex)].
  - lia.
  - rewrite Hp in Hk.
    pose proof (wait_loop_polls _ _ _ _ _ _ _ _ Hloop (polls hk)) as Hset.
    change (polls (Log MsgWaiting :: ClockRead :: h2)) with (polls h2)
      in Hset.
    specialize (Hset ltac:(lia)). unfold settles in Hset.
    destruct (polled (get_reply w (polls hk))) as [[[|] status]|e|];
      try contradiction.
    + destruct (verdict status) as [[|]|]; [| |exact I];
        destruct Hset as [-> _]; exact Hex.
    + destruct Hset as [-> _]. exact Hex.
    + destruct Hset as [-> _]. exact Hex.
Qed.

(** C1. The exit status is 0 exactly when the run reached an allow
    decision; the run then ended on a poll, made with its own token and
    request id, that returned success with the status "approved", and any
    poll of the run returning that gives status 0.  Status 1 follows from
    each cause of failure as the world presents it: a credential file that
    is missing, unreadable or blank; a creation answer that is not a
    usable 201, or a creation call that raises; a poll of the run that
    fails, raises, or returns anything but "approved" and "pending"
    (denied, expired, timeout, unrecognized); a deadline check of the run
    that finds more than 30 seconds elapsed; a sleep of the run that is
    interrupted; and any exception that leaves [main].  There is no other
    status, and the run ends once such a check lies within the fuel. *)
Theorem exit_status_fail_closed (w : world) (fuel : nat) :
  (exit_status w fuel = Some 0%Z <-> allow_decision w fuel)
  /\ (exit_status w fuel = Some 0%Z ->
      exists tok request_id h0,
        fst (read_jwt_token w []) = Val (Some tok)
        /\ fst (create_auth_request w tok (command_line w) [])
           = Val request_id
        /\ fst (poll_auth_status w tok request_id h0)
           = Val (true, PStr "approved")
        /\ transcript w fuel
           = Log MsgSuccessful :: Log MsgApproved
               :: snd (poll_auth_status w tok request_id h0))
  /\ (forall token request_id hk,
        (polls hk < polls (transcript w fuel))%nat ->
        fst (poll_auth_status w token request_id hk)
        = Val (true, PStr "approved") ->
        exit_status w fuel = Some 0%Z)
  /\ (forall code, exit_status w fuel = Some code ->
                   code = 0%Z \/ code = 1%Z)
  /\ (credential_unavailable (jwt_file w) ->
      exit_status w fuel = Some 1%Z)
  /\ (forall mode e, jwt_file w = Unreadable mode e ->
                     exit_status w fuel = Some 1%Z)
  /\ (creation_fails (post_reply w) -> exit_status w fuel = Some 1%Z)
  /\ (forall e, post_reply w = Fails e -> exit_status w fuel = Some 1%Z)
  /\ (forall token request_id hk status,
        (polls hk < polls (transcript w fuel))%nat ->
        fst (poll_auth_status w token request_id hk) = Val (false, status) ->
        exit_status w fuel = Some 1%Z)
  /\ (forall token request_id hk status,
        (polls hk < polls (transcript w fuel))%nat ->
        fst (poll_auth_status w token request_id hk) = Val (true, status) ->
        status <> PStr "approved" -> status <> PStr "pending" ->
        exit_status w fuel = Some 1%Z)
  /\ (forall token request_id hk e,
        (polls hk < polls (transcript w fuel))%nat ->
        fst (poll_auth_status w token request_id hk) = Raise e ->
        exit_status w fuel = Some 1%Z)
  /\ (forall j,
        (1 <= j < readings (transcript w fuel))%nat ->
        (REQUEST_TIMEOUT < clock w j - clock w 0)%Q ->
        exit_status w fuel = Some 1%Z)
  /\ (forall k e,
        (k < naps (transcript w fuel))%nat ->
        sleep_exn w k = Some e ->
        exit_status w fuel = Some 1%Z)
  /\ (forall e, fst (main w fuel []) = Raise e ->
                exit_status w fuel = Some 1%Z)
  /\ (exit_status w fuel = None <-> fst (main w fuel []) = Diverge)
  /\ ((exists n, (n < fuel)%nat
                 /\ (REQUEST_TIMEOUT < clock w (S n) - clock w 0)%Q) ->
      exit_status w fuel <> None).
Proof.
  split; [apply exit_zero_iff_allow|].
  split.
  { intro Hzero. apply exit_zero_iff_allow in Hzero.
    destruct Hzero as (tok & h1 & rid & h2 & h3 & E1 & Et & E2 & Ht & E3).
    pose proof E3 as Hw. rewrite wait_for_auth_response_unfold in Hw.
    destruct (wait_loop_allow _ _ _ _ _ _ _ Hw) as (h0 & h1' & Hpoll & ->).
    exists tok, rid, h0. repeat split.
    - rewrite read_jwt_token_value,
        <- (read_jwt_token_value w (start_history w)), E1. reflexivity.
    - rewrite create_auth_request_value,
        <- (create_auth_request_value w tok (command_line w) h1), E2.
      reflexivity.
    - rewrite Hpoll. reflexivity.
    - unfold transcript, run.
      rewrite main_stage_token, E1, Et, E2, Ht, E3, Hpoll. reflexivity. }
  split.
  { intros token rid hk Hk Hpoll.
    pose proof (run_poll_settles w fuel token rid hk Hk) as Hs.
    rewrite Hpoll in Hs. exact Hs. }
  split; [intro code; apply exit_status_binary|].
  split.
  { intro H. apply credential_unavailable_none in H.
    apply run_without_token. intro tok. rewrite H. discriminate. }
  split.
  { intros mode e Hf. apply run_without_token. intro tok. rewrite Hf.
    simpl. destruct (is_Exception e); discriminate. }
  split.
  { intro H. apply creation_fails_created in H.
    apply (run_without_request w fuel PNone H). reflexivity. }
  split.
  { intros e He.
    destruct (run_cases w fuel)
      as [(l & Hrun & _)
         |[(tok & l2 & l1 & _ & Hrun & _)
          |(tok & rid & q & h2 & l2 & l1 & _ & Hc & Ht & _)]].
    - unfold exit_status. rewrite Hrun. reflexivity.
    - unfold exit_status. rewrite Hrun. reflexivity.
    - exfalso. rewrite create_auth_request_value, He in Hc. simpl in Hc.
      destruct (is_Exception e); [|discriminate].
      injection Hc as <-. discriminate. }
  split.
  { intros token rid hk status Hk Hpoll.
    pose proof (run_poll_settles w fuel token rid hk Hk) as Hs.
    rewrite Hpoll in Hs. exact Hs. }
  split.
  { intros token rid hk status Hk Hpoll Ha Hp.
    pose proof (run_poll_settles w fuel token rid hk Hk) as Hs.
    rewrite Hpoll, (verdict_of_refusal status Ha Hp) in Hs. exact Hs. }
  split.
  { intros token rid hk e Hk Hpoll.
    pose proof (run_poll_settles w fuel token rid hk Hk) as Hs.
    rewrite Hpoll in Hs. exact Hs. }
  split.
  { intros j Hj Hlate.
    destruct (run_loop w fuel)
      as [(_ & _ & Hr & _)
         |(tok & rid & h2 & r & h3 & Hloop & _ & Hr2 & _ & _ & Hr & _ & Hex)].
    - lia.
    - rewrite Hr in Hj.
      rewrite (wait_loop_late_check _ _ _ _ _ _ _ _ Hloop j) in Hex;
        [exact Hex | | exact Hlate].
      change (readings (Log MsgWaiting :: ClockRead :: h2))
        with (S (readings h2)). lia. }
  split.
  { intros k e Hk He.
    destruct (run_loop w fuel)
      as [(_ & _ & _ & Hn)
         |(tok & rid & h2 & r & h3 & Hloop & _ & _ & Hn2 & _ & _ & Hn & Hex)].
    - lia.
    - rewrite Hn in Hk.
      rewrite (wait_loop_sleep_raises _ _ _ _ _ _ _ _ Hloop k e) in Hex;
        [exact Hex | | exact He].
      change (naps (Log MsgWaiting :: ClockRead :: h2)) with (naps h2).
      lia. }
  split.
  { intros e He. rewrite exit_status_of_main, He. reflexivity. }
  split; [apply exit_none_iff_diverge | apply exit_status_returns].
Qed.

Lemma exit_status_fail_closed_witness :
  exit_status approving_world 3 = Some 0%Z
  /\ (exists tok request_id h0,
         fst (read_jwt_token approving_world []) = Val (Some tok)
         /\ fst (create_auth_request approving_world tok
                   (command_line approving_world) []) = Val request_id
         /\ fst (poll_auth_status approving_world tok request_id h0)
            = Val (true, PStr "approved")
         /\ transcript approving_world 3
            = Log MsgSuccessful :: Log MsgApproved
                :: snd (poll_auth_status approving_world tok request_id h0))
  /\ exit_status denying_world 3 = Some 1%Z.
Proof.
  split; [reflexivity|]. split.
  - destruct (exit_status_fail_closed approving_world 3) as (_ & Htied & _).
    apply Htied. reflexivity.
  - destruct (exit_status_fail_closed denying_world 3)
      as (_ & _ & _ & _ & _ & _ & _ & _ & _ & Hrefused & _).
    apply (Hrefused "tok" (PStr "req-1") [HttpGet "tok" (PStr "req-1")]
             (PStr "denied")).
    + vm_compute. lia.
    + reflexivity.
    + discriminate.
    + discriminate.
Defined.
